(** * Activity aggregation and streak engine of the study-tracking backend

  A shallow embedding of the handlers [get_analytics] and [get_streak]
  (sessions.py), [get_subject_stats] (subjects.py) and
  [get_study_data_for_ai] / [get_weekly_insights] (ai.py), and of the
  handlers of single sessions [create_session], [get_session],
  [update_session] and [delete_session] (sessions.py).

  Modelling conventions.
  - A [datetime] is the number of microseconds since 0001-01-01T00:00:00
    (all datetimes of the program are naive UTC); a [date] is its
    proleptic Gregorian ordinal ([date.toordinal()]), so 0001-01-01 is 1.
    Python raises [OverflowError] when date arithmetic leaves the years
    1..9999 or when [timedelta(days=d)] has [|d| > 999999999]; these
    operations return [option] here and [None] stands for the exception.
  - [time_spent] is a [Float] column.  It is modelled by an exact
    rational ([Q]); sums, quotients and [round] are the exact ones, compared
    with [==].  Binary floating-point rounding error is outside this model.
  - A Python [dict] is an association list in insertion order, which is
    the iteration order the program observes ([keys()], [items()],
    [values()]).
  - Every handler wraps its body in [try: ... except Exception: return 500];
    a body is a value of [option] and [try_except] maps [None] to the 500
    response. *)

From Stdlib Require Import ZArith QArith Qround Qabs List String Bool Lia Lqa Permutation Sorted.
Import ListNotations.

Local Open Scope Z_scope.

(** ** Responses *)

Inductive response (A : Type) : Type :=
| Ok200 (body : A)
| BadRequest400 (error : string)
| InternalError500.

Arguments Ok200 {A} body.
Arguments BadRequest400 {A} error.
Arguments InternalError500 {A}.

Definition try_except {A : Type} (body : option A) : response A :=
  match body with
  | Some a => Ok200 a
  | None => InternalError500
  end.

Definition bind {A B : Type} (m : option A) (k : A -> option B) : option B :=
  match m with
  | Some a => k a
  | None => None
  end.

Notation "x <- m ;; k" := (bind m (fun x => k))
  (at level 61, m at next level, right associativity).

(** ** Dates and instants *)

Module Datetime.

Definition US_PER_DAY : Z := 86400000000.

(** [date.min.toordinal()] and [date.max.toordinal()]. *)
Definition MINORDINAL : Z := 1.
Definition MAXORDINAL : Z := 3652059.

(** [datetime.min] and one past [datetime.max], in microseconds. *)
Definition DATETIME_MIN : Z := 0.
Definition DATETIME_END : Z := MAXORDINAL * US_PER_DAY.

Definition MAX_DELTA_DAYS : Z := 999999999.

(** [timedelta(days=d)], in microseconds. *)
Definition timedelta_days (d : Z) : option Z :=
  if (- MAX_DELTA_DAYS <=? d) && (d <=? MAX_DELTA_DAYS)
  then Some (d * US_PER_DAY) else None.

(** [dt - delta] on datetimes. *)
Definition datetime_sub (dt delta : Z) : option Z :=
  let r := dt - delta in
  if (DATETIME_MIN <=? r) && (r <? DATETIME_END) then Some r else None.

(** [dt.date()], as an ordinal. *)
Definition date (dt : Z) : Z := dt / US_PER_DAY + 1.

(** [d - timedelta(days=n)] on dates. *)
Definition date_sub_days (d n : Z) : option Z :=
  delta <- timedelta_days n ;;
  let r := d - delta / US_PER_DAY in
  if (MINORDINAL <=? r) && (r <=? MAXORDINAL) then Some r else None.

(** [(d1 - d2).days] on dates. *)
Definition date_diff_days (d1 d2 : Z) : Z := d1 - d2.

End Datetime.


(** ** Rows of the database (models.py) *)

Module User.
Record t : Type := mk {
  id : Z;
  academic_goal : option string;
  focus_areas : option string
}.
End User.

Module Subject.
Record t : Type := mk {
  id : Z;
  name : string;
  color : string;
  user_id : Z
}.
End Subject.

Module StudySession.
Record t : Type := mk {
  id : Z;
  subject : Subject.t;        (* the row reached through [session.subject] *)
  time_spent : Q;             (* hours *)
  topic : option string;
  focus_level : option Z;     (* 1-10 scale, nullable *)
  timestamp : Z
}.
End StudySession.

Module AudioNote.
Record t : Type := mk {
  id : Z;
  user_id : Z;
  transcript : option string;
  timestamp : Z
}.
End AudioNote.

(** ** Python built-ins used by the handlers *)

(** [sum(xs)]: a left fold from 0. *)
Definition sum_Z (xs : list Z) : Z := fold_left Z.add xs 0.
Definition sum_Q (xs : list Q) : Q := fold_left Qplus xs (0%Q).

(** [len(xs)] *)
Definition len {A : Type} (xs : list A) : Z := Z.of_nat (List.length xs).

(** Truthiness of a nullable integer and of a nullable string. *)
Definition truthy_Z (x : option Z) : bool :=
  match x with
  | Some v => negb (v =? 0)
  | None => false
  end.

Definition truthy_string (x : option string) : bool :=
  match x with
  | Some EmptyString => false
  | Some _ => true
  | None => false
  end.

(** Nearest integer, ties to the even one. *)
Definition round_half_even (x : Q) : Z :=
  let f := Qfloor x in
  match Qcompare (x - inject_Z f) (1 # 2) with
  | Lt => f
  | Gt => f + 1
  | Eq => if Z.even f then f else f + 1
  end.

(** [round(x, ndigits)] *)
Definition py_round (x : Q) (ndigits : nat) : Q :=
  Qmake (round_half_even (x * inject_Z (10 ^ Z.of_nat ndigits)))
        (Z.to_pos (10 ^ Z.of_nat ndigits)).

Definition Qltb (x y : Q) : bool := negb (Qle_bool y x).

Section Sorting.
Context {A : Type} (ltb : A -> A -> bool).

(** Stable descending sort: [sorted(l, reverse=True)],
    [l.sort(key=..., reverse=True)] and [ORDER BY ... DESC].
    [ltb x y] says that the key of [x] is strictly below that of [y]. *)
Fixpoint insert_desc (x : A) (l : list A) : list A :=
  match l with
  | [] => [x]
  | y :: ys => if ltb x y then y :: insert_desc x ys else x :: l
  end.

Definition sorted_desc (l : list A) : list A := fold_right insert_desc [] l.
End Sorting.

Section Extremum.
Context {A : Type} (key : A -> Q).

Fixpoint max_from (best : A) (l : list A) : A :=
  match l with
  | [] => best
  | x :: l' => max_from (if Qltb (key best) (key x) then x else best) l'
  end.

Fixpoint min_from (best : A) (l : list A) : A :=
  match l with
  | [] => best
  | x :: l' => min_from (if Qltb (key x) (key best) then x else best) l'
  end.

(** [max(l, key=key)] and [min(l, key=key)]: the first extremal element;
    [ValueError] on an empty sequence. *)
Definition py_max (l : list A) : option A :=
  match l with
  | [] => None
  | x :: l' => Some (max_from x l')
  end.

Definition py_min (l : list A) : option A :=
  match l with
  | [] => None
  | x :: l' => Some (min_from x l')
  end.
End Extremum.

Section Dict.
Context {K V : Type} (eqb : K -> K -> bool).

Definition dict : Type := list (K * V).

Definition keys (d : dict) : list K := map fst d.
Definition values (d : dict) : list V := map snd d.

(** [k in d] *)
Fixpoint contains (k : K) (d : dict) : bool :=
  match d with
  | [] => false
  | (k', _) :: d' => eqb k k' || contains k d'
  end.

(** [d[k] = f(d[k])] for a key that is present. *)
Fixpoint modify (k : K) (f : V -> V) (d : dict) : dict :=
  match d with
  | [] => []
  | (k', v) :: d' => if eqb k k' then (k', f v) :: d' else (k', v) :: modify k f d'
  end.

(** [if k not in d: d[k] = init], then [d[k] = f(d[k])]. *)
Definition upsert (k : K) (init : V) (f : V -> V) (d : dict) : dict :=
  if contains k d then modify k f d else d ++ [(k, f init)].
End Dict.

Arguments dict : clear implicits.

(** ** sessions.py *)

Module Sessions.

(** [request.args.get('days', type=int, default=7)]: the default is used
    when the argument is missing or is not an integer ([None] here). *)
Definition args_get_days (arg : option Z) : Z :=
  match arg with
  | Some d => d
  | None => 7
  end.

Record Period : Type := mkPeriod {
  start_date : Z;
  end_date : Z;
  days : Z
}.

Record Summary : Type := mkSummary {
  total_time : Q;
  total_sessions : Z;
  average_focus_level : Q;
  average_time_per_session : Q
}.

Record DayEntry : Type := mkDayEntry {
  day_time : Q;
  day_sessions : Z
}.

Record SubjectEntry : Type := mkSubjectEntry {
  time : Q;
  sessions : Z;
  color : string
}.

Record Analytics : Type := mkAnalytics {
  period : Period;
  summary : Summary;
  daily_breakdown : dict Z DayEntry;
  subject_breakdown : dict string SubjectEntry
}.

(** The query of [get_analytics]: the user's sessions with
    [timestamp >= start_date] and [timestamp <= end_date]. *)
Definition sessions_in_range (table : list StudySession.t)
  (current_user_id start_date end_date : Z) : list StudySession.t :=
  filter
    (fun s =>
       (Subject.user_id (StudySession.subject s) =? current_user_id)
       && (start_date <=? StudySession.timestamp s)
       && (StudySession.timestamp s <=? end_date))
    table.

(** [[s.focus_level for s in sessions if s.focus_level is not None]] *)
Definition focus_levels (sessions : list StudySession.t) : list Z :=
  flat_map
    (fun s => match StudySession.focus_level s with
              | Some f => [f]
              | None => []
              end)
    sessions.

(** The variable [avg_focus] of [get_analytics], before rounding. *)
Definition avg_focus (sessions : list StudySession.t) : Q :=
  match sessions with
  | [] => 0%Q
  | _ :: _ =>
      match focus_levels sessions with
      | [] => 0%Q
      | _ :: _ =>
          (inject_Z (sum_Z (focus_levels sessions))
           / inject_Z (len (focus_levels sessions)))%Q
      end
  end.

Definition daily_data (sessions : list StudySession.t) : dict Z DayEntry :=
  fold_left
    (fun d session =>
       upsert Z.eqb (Datetime.date (StudySession.timestamp session))
         (mkDayEntry 0 0)
         (fun e => mkDayEntry (day_time e + StudySession.time_spent session)%Q
                              (day_sessions e + 1))
         d)
    sessions [].

Definition subject_data (sessions : list StudySession.t) : dict string SubjectEntry :=
  fold_left
    (fun d session =>
       upsert String.eqb (Subject.name (StudySession.subject session))
         (mkSubjectEntry 0 0 (Subject.color (StudySession.subject session)))
         (fun e => let (t, n, c) := e in
                   mkSubjectEntry (t + StudySession.time_spent session)%Q (n + 1) c)
         d)
    sessions [].

(** The response composed from the filtered [sessions]. *)
Definition analytics (start_date end_date days : Z) (sessions : list StudySession.t)
  : Analytics :=
  let total_time := sum_Q (map StudySession.time_spent sessions) in
  let total_sessions := len sessions in
  mkAnalytics
    (mkPeriod start_date end_date days)
    (mkSummary
       (py_round total_time 2)
       total_sessions
       (py_round (avg_focus sessions) 1)
       (if 0 <? total_sessions
        then py_round (total_time / inject_Z total_sessions) 2
        else 0%Q))
    (daily_data sessions)
    (subject_data sessions).

Definition get_analytics (table : list StudySession.t)
  (current_user_id utcnow : Z) (arg : option Z) : response Analytics :=
  try_except
    (let days := args_get_days arg in
     let end_date := utcnow in
     delta <- Datetime.timedelta_days days ;;
     start_date <- Datetime.datetime_sub end_date delta ;;
     let sessions := sessions_in_range table current_user_id start_date end_date in
     Some (analytics start_date end_date days sessions)).

Record StreakResult : Type := mkStreakResult {
  current_streak : Z;
  longest_streak : Z
}.

(** The three counters of the loop of [get_streak]. *)
Record counters : Type := mkCounters {
  current : Z;
  longest : Z;
  temp : Z
}.

(** One iteration of [for i, date in enumerate(dates)]. *)
Definition streak_body (today : Z) (dates : list Z) (i : nat) (date : Z)
  (c : counters) : option counters :=
  c1 <-
    (if (i =? 0)%nat && (date =? today) then
       Some (mkCounters 1 (longest c) 1)
     else if (i =? 0)%nat then
       yesterday <- Datetime.date_sub_days today 1 ;;
       if date =? yesterday then Some (mkCounters 1 (longest c) 1)
       else Some c
     else
       let prev_date := nth (i - 1) dates 0 in
       if Datetime.date_diff_days prev_date date =? 1 then
         let t := temp c + 1 in
         Some (mkCounters (if (i =? 1)%nat then t else current c) (longest c) t)
       else
         Some (mkCounters (current c) (Z.max (longest c) (temp c)) 1)) ;;
  Some (mkCounters (current c1) (Z.max (longest c1) (temp c1)) (temp c1)).

(** The loop, at index [i], with [rest] the dates from index [i] on. *)
Fixpoint streak_loop (today : Z) (dates : list Z) (i : nat) (rest : list Z)
  (c : counters) : option counters :=
  match rest with
  | [] => Some c
  | date :: rest' =>
      c' <- streak_body today dates i date c ;;
      streak_loop today dates (S i) rest' c'
  end.

(** [sessions_by_date]: the sessions grouped under their calendar date. *)
Definition sessions_by_date (sessions : list StudySession.t)
  : dict Z (list StudySession.t) :=
  fold_left
    (fun d session =>
       upsert Z.eqb (Datetime.date (StudySession.timestamp session))
         [] (fun l => l ++ [session]) d)
    sessions [].

(** The query of [get_streak]: the user's sessions, newest first. *)
Definition sessions_desc (table : list StudySession.t) (current_user_id : Z)
  : list StudySession.t :=
  sorted_desc
    (fun a b => StudySession.timestamp a <? StudySession.timestamp b)
    (filter (fun s => Subject.user_id (StudySession.subject s) =? current_user_id)
       table).

Definition get_streak (table : list StudySession.t) (current_user_id utcnow : Z)
  : response StreakResult :=
  try_except
    (let sessions := sessions_desc table current_user_id in
     match sessions with
     | [] => Some (mkStreakResult 0 0)
     | _ :: _ =>
         let dates := sorted_desc Z.ltb (keys (sessions_by_date sessions)) in
         let today := Datetime.date utcnow in
         c <- streak_loop today dates 0 dates (mkCounters 0 0 0) ;;
         Some (mkStreakResult (current c) (longest c))
     end).

End Sessions.

(** ** subjects.py *)

Module Subjects.

Record Stats : Type := mkStats {
  id : Z;
  name : string;
  color : string;
  total_study_time : Q;
  session_count : Z;
  average_focus_level : Q;
  last_studied : option Z
}.

(** [subject.study_sessions]: the rows whose [subject_id] is the subject's. *)
Definition study_sessions (table : list StudySession.t) (subject : Subject.t)
  : list StudySession.t :=
  filter (fun s => Subject.id (StudySession.subject s) =? Subject.id subject) table.

(** [session.focus_level or 0] *)
Definition focus_level_or_0 (session : StudySession.t) : Z :=
  match StudySession.focus_level session with
  | Some f => if f =? 0 then 0 else f
  | None => 0
  end.

(** The variable [avg_focus] of [get_subject_stats], before rounding. *)
Definition avg_focus (study_sessions : list StudySession.t) : Q :=
  match study_sessions with
  | [] => 0%Q
  | _ :: _ =>
      (inject_Z (sum_Z (map focus_level_or_0 study_sessions))
       / inject_Z (len study_sessions))%Q
  end.

(** [max([session.timestamp for ...]).isoformat() if ... else None] *)
Definition last_timestamp (study_sessions : list StudySession.t) : option Z :=
  match map StudySession.timestamp study_sessions with
  | [] => None
  | t :: ts => Some (fold_left Z.max ts t)
  end.

Definition subject_stats (table : list StudySession.t) (subject : Subject.t) : Stats :=
  let ss := study_sessions table subject in
  mkStats (Subject.id subject) (Subject.name subject) (Subject.color subject)
    (sum_Q (map StudySession.time_spent ss))
    (len ss)
    (py_round (avg_focus ss) 1)
    (last_timestamp ss).

Definition get_subject_stats (subject_table : list Subject.t)
  (table : list StudySession.t) (current_user_id : Z) : response (list Stats) :=
  try_except
    (let subjects :=
       filter (fun s => Subject.user_id s =? current_user_id) subject_table in
     let stats := map (subject_stats table) subjects in
     Some (sorted_desc (fun a b => Qltb (total_study_time a) (total_study_time b))
             stats)).

End Subjects.

(** ** ai.py *)

Module Ai.

(** One value of the dict [subject_sessions]. *)
Record SubjectSessions : Type := mkSubjectSessions {
  total_time : Q;
  sessions : Z;
  focus_levels : list Z;
  topics : list string
}.

Record StudyData : Type := mkStudyData {
  user_goal : string;
  focus_areas : string;
  period_days : Z;
  subjects : dict string SubjectSessions;
  reflections : list AudioNote.t
}.

(** [x or 'Not specified'] on a nullable string column. *)
Definition or_not_specified (x : option string) : string :=
  match x with
  | Some EmptyString => "Not specified"
  | Some s => s
  | None => "Not specified"
  end.

Definition add_session (session : StudySession.t) (e : SubjectSessions)
  : SubjectSessions :=
  mkSubjectSessions
    (total_time e + StudySession.time_spent session)%Q
    (sessions e + 1)
    (if truthy_Z (StudySession.focus_level session)
     then focus_levels e ++ match StudySession.focus_level session with
                            | Some f => [f]
                            | None => []
                            end
     else focus_levels e)
    (if truthy_string (StudySession.topic session)
     then topics e ++ match StudySession.topic session with
                      | Some t => [t]
                      | None => []
                      end
     else topics e).

Definition subject_sessions (sessions : list StudySession.t)
  : dict string SubjectSessions :=
  fold_left
    (fun d session =>
       upsert String.eqb (Subject.name (StudySession.subject session))
         (mkSubjectSessions 0 0 [] []) (add_session session) d)
    sessions [].

(** [get_study_data_for_ai(user_id, days)]; [User.query.get] is a lookup by
    primary key and [user.academic_goal] raises on a missing user. *)
Definition get_study_data_for_ai (users : list User.t)
  (table : list StudySession.t) (notes : list AudioNote.t)
  (utcnow user_id days : Z) : option StudyData :=
  let end_date := utcnow in
  delta <- Datetime.timedelta_days days ;;
  start_date <- Datetime.datetime_sub end_date delta ;;
  let sessions :=
    filter
      (fun s =>
         (Subject.user_id (StudySession.subject s) =? user_id)
         && (start_date <=? StudySession.timestamp s)
         && (StudySession.timestamp s <=? end_date))
      table in
  let audio_notes :=
    filter
      (fun n =>
         (AudioNote.user_id n =? user_id)
         && (start_date <=? AudioNote.timestamp n)
         && (AudioNote.timestamp n <=? end_date))
      notes in
  user <- find (fun u => User.id u =? user_id) users ;;
  Some (mkStudyData
          (or_not_specified (User.academic_goal user))
          (or_not_specified (User.focus_areas user))
          days
          (subject_sessions sessions)
          (filter (fun n => truthy_string (AudioNote.transcript n)) audio_notes)).

(** The entries [most_studied_subject] and [least_studied_subject]. *)
Record Extremum : Type := mkExtremum {
  name : option string;
  time : Q
}.

Record Insights : Type := mkInsights {
  total_study_time : Q;
  total_sessions : Z;
  average_focus_level : Q;
  most_studied_subject : Extremum;
  least_studied_subject : Extremum;
  reflection_count : Z;
  subjects_studied : Z
}.

Definition item_time (item : string * SubjectSessions) : Q := total_time (snd item).

Definition extremum_of (item : string * SubjectSessions) : Extremum :=
  mkExtremum (Some (fst item)) (total_time (snd item)).

(** The placeholder [(None, {'total_time': 0})]. *)
Definition placeholder : Extremum := mkExtremum None 0.

(** The variable [avg_focus] of [get_weekly_insights], before rounding. *)
Definition avg_focus (subjects : dict string SubjectSessions) : Q :=
  let all_focus_levels := flat_map focus_levels (values subjects) in
  match all_focus_levels with
  | [] => 0%Q
  | _ :: _ => (inject_Z (sum_Z all_focus_levels) / inject_Z (len all_focus_levels))%Q
  end.

(** The body of [get_weekly_insights] after the study data is fetched. *)
Definition weekly_insights (study_data : StudyData) : option Insights :=
  let total_time := sum_Q (map total_time (values (subjects study_data))) in
  let total_sessions := sum_Z (map sessions (values (subjects study_data))) in
  let subjects := subjects study_data in
  extrema <-
    (match subjects with
     | _ :: _ =>
         most_studied <- py_max item_time subjects ;;
         least_studied <- py_min item_time subjects ;;
         Some (extremum_of most_studied, extremum_of least_studied)
     | [] => Some (placeholder, placeholder)
     end) ;;
  Some (mkInsights
          (py_round total_time 2)
          total_sessions
          (py_round (avg_focus subjects) 1)
          (fst extrema)
          (snd extrema)
          (len (reflections study_data))
          (len subjects)).

Definition get_weekly_insights (users : list User.t)
  (table : list StudySession.t) (notes : list AudioNote.t)
  (current_user_id utcnow : Z) : response Insights :=
  try_except
    (study_data <- get_study_data_for_ai users table notes utcnow current_user_id 7 ;;
     weekly_insights study_data).

End Ai.

(** ** Further dictionary operations *)

Section DictLookup.
Context {K V : Type} (eqb : K -> K -> bool).

(** [d.get(k)]: the value stored under [k], if any. *)
Fixpoint get (k : K) (d : dict K V) : option V :=
  match d with
  | [] => None
  | (k', v) :: d' => if eqb k k' then Some v else get k d'
  end.

(** The distinct elements of [l], each at its first occurrence. *)
Fixpoint first_seen (l : list K) : list K :=
  match l with
  | [] => []
  | k :: l' => k :: filter (fun k' => negb (eqb k' k)) (first_seen l')
  end.
End DictLookup.

(** ** sessions.py: the handlers of single sessions

    The JSON body of a request is taken to be [null] or an object whose
    members, when present, are [null] or have the JSON type of the column
    they are stored in.  The primary key given to a new row and the clock are
    inputs.  A handler returns its answer and the table as committed; a
    request that ends without [commit] leaves the table as it was. *)

Module SessionRow.
(** A row of [study_session]: the columns of [StudySession.t] and [notes]. *)
Record t : Type := mk {
  session : StudySession.t;
  notes : option string
}.
End SessionRow.

(** A member of a JSON object: missing, [null], or a value. *)
Inductive member (A : Type) : Type :=
| Missing
| Null
| Value (a : A).

Arguments Missing {A}.
Arguments Null {A}.
Arguments Value {A} a.

Module SessionBody.
Record t : Type := mk {
  subject_id : member Z;
  time_spent : member Q;
  topic : member string;
  focus_level : member Z;
  notes : member string;
  other_members : bool          (* the object has members besides these *)
}.
End SessionBody.

(** [k in data], [data.get(k)] and [data.get(k, default)]. *)
Definition has_key {A : Type} (m : member A) : bool :=
  match m with
  | Missing => false
  | _ => true
  end.

Definition data_get {A : Type} (m : member A) : option A :=
  match m with
  | Value a => Some a
  | _ => None
  end.

Definition data_get_default {A : Type} (m : member A) (default : A) : option A :=
  match m with
  | Missing => Some default
  | Null => None
  | Value a => Some a
  end.

Module SessionRoutes.

(** The answers: [{'message', 'session'}], a session, [{'message'}] and
    [{'error'}], each with its status. *)
Inductive reply : Type :=
| WithSession (status : Z) (message : string) (session : SessionRow.t)
| Session (status : Z) (session : SessionRow.t)
| Message (status : Z) (message : string)
| Error (status : Z) (error : string).

(** [not data] *)
Definition no_data (data : option SessionBody.t) : bool :=
  match data with
  | None => true
  | Some d =>
      negb (has_key (SessionBody.subject_id d) || has_key (SessionBody.time_spent d)
            || has_key (SessionBody.topic d) || has_key (SessionBody.focus_level d)
            || has_key (SessionBody.notes d) || SessionBody.other_members d)
  end.

(** [x is not None and (x < 1 or x > 10)] *)
Definition focus_out_of_range (focus_level : option Z) : bool :=
  match focus_level with
  | Some f => (f <? 1) || (10 <? f)
  | None => false
  end.

(** The session with this id among the sessions of the user's subjects:
    [StudySession.query.join(Subject).filter(...).first()]. *)
Definition owned (session_id current_user_id : Z) (row : SessionRow.t) : bool :=
  (StudySession.id (SessionRow.session row) =? session_id)
  && (Subject.user_id (StudySession.subject (SessionRow.session row))
      =? current_user_id).

Definition find_session (table : list SessionRow.t) (session_id current_user_id : Z)
  : option SessionRow.t :=
  find (owned session_id current_user_id) table.

Definition create_session (subjects : list Subject.t) (table : list SessionRow.t)
  (current_user_id new_id utcnow : Z) (data : option SessionBody.t)
  : reply * list SessionRow.t :=
  match data with
  | None => (Error 400 "No data provided", table)
  | Some d =>
      if no_data data then (Error 400 "No data provided", table)
      else
        let topic := data_get_default (SessionBody.topic d) ""%string in
        let focus_level := data_get (SessionBody.focus_level d) in
        let notes := data_get_default (SessionBody.notes d) ""%string in
        match data_get (SessionBody.subject_id d) with
        | None => (Error 400 "Subject ID is required", table)
        | Some subject_id =>
            if subject_id =? 0 then (Error 400 "Subject ID is required", table)
            else
              match data_get (SessionBody.time_spent d) with
              | None => (Error 400 "Valid time spent is required", table)
              | Some time_spent =>
                  (* [not time_spent or time_spent <= 0] *)
                  if Qeq_bool time_spent 0 || Qle_bool time_spent 0
                  then (Error 400 "Valid time spent is required", table)
                  else
                    match find (fun s => (Subject.id s =? subject_id)
                                         && (Subject.user_id s =? current_user_id))
                            subjects with
                    | None => (Error 404 "Subject not found", table)
                    | Some subject =>
                        if focus_out_of_range focus_level
                        then (Error 400 "Focus level must be between 1 and 10",
                              table)
                        else
                          let row :=
                            SessionRow.mk
                              (StudySession.mk new_id subject time_spent topic
                                 focus_level utcnow)
                              notes in
                          (WithSession 201 "Study session created successfully" row,
                           table ++ [row])
                    end
              end
        end
  end.

Definition get_session (table : list SessionRow.t) (current_user_id session_id : Z)
  : reply :=
  match find_session table session_id current_user_id with
  | None => Error 404 "Session not found"
  | Some row => Session 200 row
  end.

(** The outcome of one field update: go on with the row, return early, or
    raise. *)
Inductive outcome : Type :=
| Continue (row : SessionRow.t)
| Return (answer : reply)
| Raise.

Definition and_then (o : outcome) (k : SessionRow.t -> outcome) : outcome :=
  match o with
  | Continue row => k row
  | _ => o
  end.

Definition set_time_spent (d : SessionBody.t) (row : SessionRow.t) : outcome :=
  match SessionBody.time_spent d with
  | Missing => Continue row
  | Null => Raise                       (* [None <= 0] is a [TypeError] *)
  | Value t =>
      if Qle_bool t 0 then Return (Error 400 "Time spent must be greater than 0")
      else
        let s := SessionRow.session row in
        Continue
          (SessionRow.mk
             (StudySession.mk (StudySession.id s) (StudySession.subject s) t
                (StudySession.topic s) (StudySession.focus_level s)
                (StudySession.timestamp s))
             (SessionRow.notes row))
  end.

Definition set_topic (d : SessionBody.t) (row : SessionRow.t) : outcome :=
  if has_key (SessionBody.topic d) then
    let s := SessionRow.session row in
    Continue
      (SessionRow.mk
         (StudySession.mk (StudySession.id s) (StudySession.subject s)
            (StudySession.time_spent s) (data_get (SessionBody.topic d))
            (StudySession.focus_level s) (StudySession.timestamp s))
         (SessionRow.notes row))
  else Continue row.

Definition set_focus_level (d : SessionBody.t) (row : SessionRow.t) : outcome :=
  if has_key (SessionBody.focus_level d) then
    if focus_out_of_range (data_get (SessionBody.focus_level d))
    then Return (Error 400 "Focus level must be between 1 and 10")
    else
      let s := SessionRow.session row in
      Continue
        (SessionRow.mk
           (StudySession.mk (StudySession.id s) (StudySession.subject s)
              (StudySession.time_spent s) (StudySession.topic s)
              (data_get (SessionBody.focus_level d)) (StudySession.timestamp s))
           (SessionRow.notes row))
  else Continue row.

Definition set_notes (d : SessionBody.t) (row : SessionRow.t) : outcome :=
  if has_key (SessionBody.notes d)
  then Continue (SessionRow.mk (SessionRow.session row) (data_get (SessionBody.notes d)))
  else Continue row.

(** [p]'s first row replaced, and removed. *)
Fixpoint replace_first (p : SessionRow.t -> bool) (new : SessionRow.t)
  (table : list SessionRow.t) : list SessionRow.t :=
  match table with
  | [] => []
  | row :: table' =>
      if p row then new :: table' else row :: replace_first p new table'
  end.

Fixpoint remove_first (p : SessionRow.t -> bool) (table : list SessionRow.t)
  : list SessionRow.t :=
  match table with
  | [] => []
  | row :: table' => if p row then table' else row :: remove_first p table'
  end.

Definition update_session (table : list SessionRow.t)
  (current_user_id session_id : Z) (data : option SessionBody.t)
  : reply * list SessionRow.t :=
  match find_session table session_id current_user_id with
  | None => (Error 404 "Session not found", table)
  | Some session =>
      match data with
      | None => (Error 400 "No data provided", table)
      | Some d =>
          if no_data data then (Error 400 "No data provided", table)
          else
            match and_then (and_then (and_then (set_time_spent d session)
                                        (set_topic d))
                              (set_focus_level d))
                    (set_notes d) with
            | Continue row =>
                (WithSession 200 "Session updated successfully" row,
                 replace_first (owned session_id current_user_id) row table)
            | Return answer => (answer, table)
            | Raise => (Error 500 "Internal server error", table)
            end
      end
  end.

Definition delete_session (table : list SessionRow.t)
  (current_user_id session_id : Z) : reply * list SessionRow.t :=
  match find_session table session_id current_user_id with
  | None => (Error 404 "Session not found", table)
  | Some _ =>
      (Message 200 "Session deleted successfully",
       remove_first (owned session_id current_user_id) table)
  end.

(** The table as the reading handlers of [Sessions] see it. *)
Definition sessions_of (table : list SessionRow.t) : list StudySession.t :=
  map SessionRow.session table.

End SessionRoutes.

(** ** Specification-side notions *)

(** [ds] lists the calendar dates on which the user has a session. *)
Definition session_dates (table : list StudySession.t) (current_user_id : Z)
  (ds : list Z) : Prop :=
  forall d, In d ds <->
    exists s, In s table
              /\ Subject.user_id (StudySession.subject s) = current_user_id
              /\ Datetime.date (StudySession.timestamp s) = d.

(** The dates of the user's sessions, one per session, and a check that
    two lists of dates have the same elements. *)
Definition dates_of (table : list StudySession.t) (current_user_id : Z) : list Z :=
  map (fun s => Datetime.date (StudySession.timestamp s))
    (filter (fun s => Subject.user_id (StudySession.subject s) =? current_user_id)
       table).

Definition subset_dates (l1 l2 : list Z) : bool :=
  forallb (fun d => existsb (Z.eqb d) l2) l1.

Definition same_dates (l1 l2 : list Z) : bool :=
  subset_dates l1 l2 && subset_dates l2 l1.

(** The average focus of a group as the specification words it: the sum and
    the number of the focus levels that are present, the mean being 0 when
    there is none. *)
Fixpoint present_focus_sum_count (group : list StudySession.t) : Z * Z :=
  match group with
  | [] => (0, 0)
  | s :: group' =>
      let (total, n) := present_focus_sum_count group' in
      match StudySession.focus_level s with
      | Some f => (f + total, 1 + n)
      | None => (total, n)
      end
  end.

Definition mean_present_focus (group : list StudySession.t) : Q :=
  let (total, n) := present_focus_sum_count group in
  if n =? 0 then 0%Q else (inject_Z total / inject_Z n)%Q.

(** What the counters of the streak loop satisfy before iteration [i]. *)
Definition counters_inv (i : nat) (c : Sessions.counters) : Prop :=
  Sessions.current c <= Sessions.longest c
  /\ Sessions.current c <= 2
  /\ ((i <= 1)%nat ->
      Sessions.current c <= Sessions.temp c <= 1
      /\ Sessions.temp c <= Sessions.longest c).

(** The [n] consecutive days ending at [d], newest first. *)
Fixpoint days_ending (d : Z) (n : nat) : list Z :=
  match n with
  | O => []
  | S n' => d :: days_ending (d - 1) n'
  end.


(** The window of a request is representable by Python's [timedelta] and
    [datetime]. *)
Definition window_representable (utcnow days : Z) : Prop :=
  - Datetime.MAX_DELTA_DAYS <= days <= Datetime.MAX_DELTA_DAYS
  /\ Datetime.DATETIME_MIN <= utcnow - days * Datetime.US_PER_DAY
     < Datetime.DATETIME_END.

(** One iteration of the loop of [get_streak] at an index [i >= 1], with
    the previous date [prev = dates[i-1]] passed along, and the loop from
    such an index on. *)
Definition streak_step (i : nat) (prev date : Z) (c : Sessions.counters)
  : Sessions.counters :=
  let c1 :=
    if prev - date =? 1 then
      Sessions.mkCounters
        (if (i =? 1)%nat then Sessions.temp c + 1 else Sessions.current c)
        (Sessions.longest c) (Sessions.temp c + 1)
    else
      Sessions.mkCounters (Sessions.current c)
        (Z.max (Sessions.longest c) (Sessions.temp c)) 1 in
  Sessions.mkCounters (Sessions.current c1)
    (Z.max (Sessions.longest c1) (Sessions.temp c1)) (Sessions.temp c1).

Fixpoint streak_walk (i : nat) (prev : Z) (rest : list Z) (c : Sessions.counters)
  : Sessions.counters :=
  match rest with
  | [] => c
  | date :: rest' => streak_walk (S i) date rest' (streak_step i prev date c)
  end.

(** The longest run of consecutive days in a descending list of distinct
    dates: walk the list, extend the run while the gap is one day, else
    close it against the best seen and start a new run of length 1. *)
Fixpoint longest_run_from (prev run best : Z) (rest : list Z) : Z :=
  match rest with
  | [] => Z.max best run
  | date :: rest' =>
      if prev - date =? 1 then longest_run_from date (run + 1) best rest'
      else longest_run_from date 1 (Z.max best run) rest'
  end.

Definition longest_run (ds : list Z) : Z :=
  match ds with
  | [] => 0
  | d :: rest => longest_run_from d 1 0 rest
  end.

(** The focus levels of a group that are present and not 0, the topics that
    are present and not empty, and the mean of a list of integers, 0 for the
    empty list. *)
Definition nonzero_focus_levels (group : list StudySession.t) : list Z :=
  flat_map
    (fun s => match StudySession.focus_level s with
              | Some f => if f =? 0 then [] else [f]
              | None => []
              end)
    group.

Definition nonempty_topics (group : list StudySession.t) : list string :=
  flat_map
    (fun s => match StudySession.topic s with
              | Some EmptyString => []
              | Some t => [t]
              | None => []
              end)
    group.


(** What the writers of [study_session] keep true of every row: a positive
    time and a focus level that is absent or within 1..10. *)
Definition valid_row (row : SessionRow.t) : Prop :=
  (0 < StudySession.time_spent (SessionRow.session row))%Q
  /\ match StudySession.focus_level (SessionRow.session row) with
     | Some f => 1 <= f <= 10
     | None => True
     end.

(** The primary keys of the table are distinct. *)
Definition unique_ids (table : list SessionRow.t) : Prop :=
  NoDup (map (fun row => StudySession.id (SessionRow.session row)) table).

(** ** Sample rows *)

Module Sample.

(** 2024-03-10T00:00:00, and noon of that day. *)
Definition midnight : Z := 738954 * Datetime.US_PER_DAY.
Definition noon : Z := midnight + 43200000000.

Definition maths : Subject.t := Subject.mk 1 "Maths" "#3B82F6" 1.
Definition physics : Subject.t := Subject.mk 2 "Physics" "#10B981" 1.

(** A session of [hours] hours in [subject], [days_ago] days before [noon]. *)
Definition session (n : Z) (subject : Subject.t) (hours : Q) (focus : option Z)
  (days_ago : Z) : StudySession.t :=
  StudySession.mk n subject hours (Some "revision"%string) focus
    (noon - days_ago * Datetime.US_PER_DAY).

Definition student : User.t := User.mk 1 (Some "Pass the exam"%string) None.

(** Histories: nothing; two sessions today; the two runs of the multi-run
    case, with two sessions on one of the days. *)
Definition no_sessions : list StudySession.t := [].

Definition today_twice : list StudySession.t :=
  [ session 1 maths 1 (Some 8) 0; session 2 physics (1 # 2) None 0 ].

Definition two_runs : list StudySession.t :=
  [ session 1 maths 1 (Some 8) 6; session 2 maths 2 None 0;
    session 3 physics 1 (Some 6) 1; session 4 maths (3 # 2) (Some 7) 5;
    session 5 physics 1 None 7; session 6 physics 2 (Some 9) 5 ].

(** Sessions on today, today-1 and today-2; and on today-5, today-4 and
    today-3. *)
Definition three_days : list StudySession.t :=
  [ session 1 maths 1 (Some 8) 0; session 2 maths 2 None 1;
    session 3 physics 1 (Some 6) 2 ].

Definition old_run : list StudySession.t :=
  [ session 1 maths 1 (Some 8) 5; session 2 maths 2 None 4;
    session 3 physics 1 (Some 6) 3 ].

(** Sessions at the two ends of the 7-day window that ends at [midnight],
    and one microsecond outside either end. *)
Definition at_instant (n : Z) (subject : Subject.t) (instant : Z) : StudySession.t :=
  StudySession.mk n subject 1 None (Some 5) instant.

Definition week_start : Z := midnight - 7 * Datetime.US_PER_DAY.

Definition window_table : list StudySession.t :=
  [ at_instant 1 maths week_start; at_instant 2 physics midnight;
    at_instant 3 maths (week_start - 1); at_instant 4 maths (midnight + 1) ].

(** The sessions of the last week of [two_runs], as [get_analytics]
    composes them at [noon] with the default window. *)
Definition week_analytics : Sessions.Analytics :=
  Sessions.analytics (noon - 7 * Datetime.US_PER_DAY) noon 7 two_runs.



(** One subject with focus levels 8, absent and 6. *)
Definition focus_gap : list StudySession.t :=
  [ session 1 maths 1 (Some 8) 0; session 2 maths 1 None 1;
    session 3 maths 1 (Some 6) 2 ].

(** The study data of a week without sessions. *)
Definition empty_week : Ai.StudyData :=
  Ai.mkStudyData "Pass the exam" "Not specified" 7 [] [].

(** The rows of [two_runs], without notes; a request of user 1 to log 45
    minutes of physics with focus 7; and a request to correct a session to
    2.5 hours with no focus level. *)
Definition rows : list SessionRow.t :=
  map (fun s => SessionRow.mk s None) two_runs.

Definition new_session : SessionBody.t :=
  SessionBody.mk (Value 2) (Value (3 # 4)) (Value "optics"%string) (Value 7)
    Missing false.

Definition correction : SessionBody.t :=
  SessionBody.mk Missing (Value (5 # 2)) Missing Null Missing false.

(** A session of another user, 3 days before [noon]. *)
Definition chemistry : Subject.t := Subject.mk 3 "Chemistry" "#EF4444" 2.

Definition other_row : SessionRow.t :=
  SessionRow.mk (session 9 chemistry 1 (Some 5) 3) (Some "lab"%string).

End Sample.

(** * Properties *)

Local Open Scope Z_scope.

(** ** The error monad *)

Lemma bind_Some {A B : Type} (m : option A) (k : A -> option B) (b : B) :
  bind m k = Some b <-> exists a, m = Some a /\ k a = Some b.
Proof.
  destruct m as [a|]; simpl; split.
  - intros H; exists a; auto.
  - intros (a' & E & H); inversion E; subst; exact H.
  - discriminate.
  - intros (a' & E & _); discriminate.
Qed.

(** ** Sorting *)

Section SortingFacts.
Context {A : Type} (ltb : A -> A -> bool).

Lemma insert_desc_perm (x : A) (l : list A) :
  Permutation (insert_desc ltb x l) (x :: l).
Proof.
  induction l as [|y ys IH]; simpl.
  - apply Permutation_refl.
  - destruct (ltb x y).
    + rewrite IH. apply perm_swap.
    + apply Permutation_refl.
Qed.

Lemma sorted_desc_perm (l : list A) : Permutation (sorted_desc ltb l) l.
Proof.
  induction l as [|x l IH]; simpl.
  - constructor.
  - rewrite insert_desc_perm. now constructor.
Qed.

Lemma sorted_desc_nil (l : list A) : sorted_desc ltb l = [] <-> l = [].
Proof.
  split; intros H.
  - apply Permutation_nil. rewrite <- H. apply sorted_desc_perm.
  - subst; reflexivity.
Qed.
End SortingFacts.

Lemma insert_desc_sorted (x : Z) (l : list Z) :
  StronglySorted Z.ge l -> StronglySorted Z.ge (insert_desc Z.ltb x l).
Proof.
  induction 1 as [|y ys Hs IH Hy]; simpl.
  - repeat constructor.
  - destruct (Z.ltb_spec x y).
    + constructor; [exact IH|].
      rewrite Forall_forall in *. intros z Hz.
      apply (Permutation_in _ (insert_desc_perm Z.ltb x ys)) in Hz.
      destruct Hz as [<-|Hz]; [lia | auto].
    + constructor; [now constructor|].
      constructor; [lia|].
      rewrite Forall_forall in *. intros z Hz. specialize (Hy z Hz). lia.
Qed.

Lemma sorted_desc_sorted (l : list Z) : StronglySorted Z.ge (sorted_desc Z.ltb l).
Proof.
  induction l; simpl; [constructor | now apply insert_desc_sorted].
Qed.

(** Two descending lists with the same elements, counted with
    multiplicity, are the same list. *)
Lemma descending_unique (l1 l2 : list Z) :
  StronglySorted Z.ge l1 -> StronglySorted Z.ge l2 -> Permutation l1 l2 -> l1 = l2.
Proof.
  intros H1; revert l2.
  induction H1 as [|a l1 Hs1 IH Ha]; intros l2 H2 HP.
  - apply Permutation_nil in HP. now subst.
  - destruct H2 as [|b l2 Hs2 Hb].
    + symmetry in HP. apply Permutation_nil in HP. discriminate.
    + assert (a = b) as ->.
      { rewrite Forall_forall in Ha, Hb.
        assert (In a (b :: l2)) as Hab by (apply (Permutation_in _ HP); now left).
        assert (In b (a :: l1)) as Hba by
            (apply (Permutation_in _ (Permutation_sym HP)); now left).
        destruct Hab as [E|Hin]; [congruence|].
        destruct Hba as [E|Hin']; [congruence|].
        specialize (Ha _ Hin'). specialize (Hb _ Hin). lia. }
      f_equal. apply IH; [exact Hs2|]. now apply Permutation_cons_inv in HP.
Qed.

Lemma descending_NoDup (ds : list Z) : StronglySorted Z.gt ds -> NoDup ds.
Proof.
  induction 1 as [|a ds Hs IH Ha]; constructor; [|exact IH].
  intros Hc. rewrite Forall_forall in Ha. specialize (Ha _ Hc). lia.
Qed.

(** A strictly descending list is the sorted form of any duplicate-free
    list with the same elements. *)
Lemma sorted_desc_canonical (l ds : list Z) :
  NoDup l -> StronglySorted Z.gt ds -> (forall d, In d ds <-> In d l) ->
  sorted_desc Z.ltb l = ds.
Proof.
  intros Hl Hds Hin.
  assert (NoDup ds) as Hnd by now apply descending_NoDup.
  apply descending_unique.
  - apply sorted_desc_sorted.
  - clear -Hds. induction Hds as [|a ds Hs IH Ha]; constructor; auto.
    eapply Forall_impl; [|exact Ha]. simpl. intros; lia.
  - rewrite sorted_desc_perm. apply NoDup_Permutation; auto.
    intros d. symmetry. apply Hin.
Qed.

(** ** Dictionaries *)

Section DictFacts.
Context {K V : Type} (eqb : K -> K -> bool).
Hypothesis eqb_spec : forall a b, eqb a b = true <-> a = b.

Lemma contains_In (k : K) (d : dict K V) : contains eqb k d = true <-> In k (keys d).
Proof.
  induction d as [|[k' v] d IH]; simpl.
  - split; [discriminate | tauto].
  - rewrite orb_true_iff, IH, eqb_spec. split; intros [H|H]; auto.
Qed.

Lemma keys_modify (k : K) (f : V -> V) (d : dict K V) :
  keys (modify eqb k f d) = keys d.
Proof.
  induction d as [|[k' v] d IH]; simpl; [reflexivity|].
  destruct (eqb k k'); simpl; [reflexivity | now rewrite IH].
Qed.

Lemma keys_upsert (k : K) (init : V) (f : V -> V) (d : dict K V) :
  keys (upsert eqb k init f d) = if contains eqb k d then keys d else keys d ++ [k].
Proof.
  unfold upsert. destruct (contains eqb k d).
  - apply keys_modify.
  - unfold keys. now rewrite map_app.
Qed.

Lemma upsert_NoDup (k : K) (init : V) (f : V -> V) (d : dict K V) :
  NoDup (keys d) -> NoDup (keys (upsert eqb k init f d)).
Proof.
  intros H. rewrite keys_upsert.
  destruct (contains eqb k d) eqn:E; [exact H|].
  apply NoDup_rev in H. rewrite <- (rev_involutive (keys d ++ [k])).
  apply NoDup_rev. rewrite rev_app_distr. simpl. constructor; [|exact H].
  rewrite <- in_rev. intros Hin. apply contains_In in Hin. congruence.
Qed.

Lemma upsert_In (k k0 : K) (init : V) (f : V -> V) (d : dict K V) :
  In k0 (keys (upsert eqb k init f d)) <-> k0 = k \/ In k0 (keys d).
Proof.
  rewrite keys_upsert. destruct (contains eqb k d) eqn:E.
  - apply contains_In in E. split; [auto|]. intros [->|H]; auto.
  - rewrite in_app_iff. simpl. split; intros H; intuition auto.
Qed.

(** The keys of a dict filled by a loop of [upsert]s. *)
Lemma fold_upsert_keys {X : Type} (key : X -> K) (init : X -> V)
  (f : X -> V -> V) (xs : list X) (d : dict K V) :
  let d' := fold_left (fun d x => upsert eqb (key x) (init x) (f x) d) xs d in
  (NoDup (keys d) -> NoDup (keys d'))
  /\ (forall k, In k (keys d') <-> In k (keys d) \/ In k (map key xs)).
Proof.
  revert d. induction xs as [|x xs IH]; intros d; simpl.
  - split; [auto|]. intros k; tauto.
  - destruct (IH (upsert eqb (key x) (init x) (f x) d)) as [IH1 IH2]. split.
    + intros H. apply IH1. now apply upsert_NoDup.
    + intros k. rewrite IH2, upsert_In. intuition auto.
Qed.
End DictFacts.

(** ** The dates walked by [get_streak] *)

Lemma sessions_desc_In (table : list StudySession.t) (uid : Z) (s : StudySession.t) :
  In s (Sessions.sessions_desc table uid) <->
  In s table /\ Subject.user_id (StudySession.subject s) = uid.
Proof.
  unfold Sessions.sessions_desc. split.
  - intros H. apply (Permutation_in _ (sorted_desc_perm _ _)) in H.
    apply filter_In in H. now rewrite Z.eqb_eq in H.
  - intros [H1 H2].
    apply (Permutation_in _ (Permutation_sym (sorted_desc_perm _ _))).
    apply filter_In. now rewrite Z.eqb_eq.
Qed.

Lemma sessions_by_date_keys (sessions : list StudySession.t) :
  NoDup (keys (Sessions.sessions_by_date sessions))
  /\ (forall d, In d (keys (Sessions.sessions_by_date sessions)) <->
                In d (map (fun s => Datetime.date (StudySession.timestamp s)) sessions)).
Proof.
  pose proof (fold_upsert_keys Z.eqb Z.eqb_eq
                (fun s => Datetime.date (StudySession.timestamp s))
                (fun _ => @nil StudySession.t)
                (fun s l => l ++ [s]) sessions []) as [H1 H2].
  split.
  - apply H1. constructor.
  - intros d. unfold Sessions.sessions_by_date. rewrite H2. simpl. tauto.
Qed.

(** The list of dates the loop of [get_streak] walks is the descending
    enumeration of the user's session dates. *)
Lemma streak_dates (table : list StudySession.t) (uid : Z) (ds : list Z) :
  session_dates table uid ds -> StronglySorted Z.gt ds ->
  sorted_desc Z.ltb (keys (Sessions.sessions_by_date (Sessions.sessions_desc table uid)))
  = ds.
Proof.
  intros Hds Hsorted.
  destruct (sessions_by_date_keys (Sessions.sessions_desc table uid)) as [Hnd Hin].
  apply sorted_desc_canonical; auto.
  intros d. rewrite Hin, (Hds d), in_map_iff. split.
  - intros (s & H1 & H2 & H3). exists s. split; [exact H3|].
    apply sessions_desc_In. auto.
  - intros (s & H1 & H2). apply sessions_desc_In in H2. exists s. tauto.
Qed.

Lemma get_streak_on_dates (table : list StudySession.t) (uid utcnow : Z) (ds : list Z) :
  session_dates table uid ds -> StronglySorted Z.gt ds ->
  Sessions.get_streak table uid utcnow =
  try_except
    (c <- Sessions.streak_loop (Datetime.date utcnow) ds 0 ds
            (Sessions.mkCounters 0 0 0) ;;
     Some (Sessions.mkStreakResult (Sessions.current c) (Sessions.longest c))).
Proof.
  intros Hds Hsorted. unfold Sessions.get_streak.
  rewrite (streak_dates table uid ds Hds Hsorted).
  destruct (Sessions.sessions_desc table uid) as [|s ss] eqn:E; [|reflexivity].
  destruct ds as [|d ds]; [reflexivity|].
  exfalso. destruct (proj1 (Hds d) (or_introl eq_refl)) as (s & H1 & H2 & _).
  assert (In s (Sessions.sessions_desc table uid)) as Hin
      by (apply sessions_desc_In; auto).
  rewrite E in Hin. exact Hin.
Qed.

Lemma subset_dates_incl (l1 l2 : list Z) : subset_dates l1 l2 = true -> incl l1 l2.
Proof.
  unfold subset_dates. rewrite forallb_forall. intros H d Hd.
  specialize (H d Hd). apply existsb_exists in H as (d' & H1 & H2).
  apply Z.eqb_eq in H2. now subst.
Qed.

(** A computable way to establish [session_dates]. *)
Lemma session_dates_by_check (table : list StudySession.t) (uid : Z) (ds : list Z) :
  same_dates ds (dates_of table uid) = true -> session_dates table uid ds.
Proof.
  unfold same_dates. rewrite andb_true_iff. intros [H1 H2].
  apply subset_dates_incl in H1, H2. intros d.
  assert (In d (dates_of table uid) <->
          exists s, In s table
                    /\ Subject.user_id (StudySession.subject s) = uid
                    /\ Datetime.date (StudySession.timestamp s) = d) as <-.
  { unfold dates_of. rewrite in_map_iff. split.
    - intros (s & E & Hs). apply filter_In in Hs. rewrite Z.eqb_eq in Hs.
      exists s. tauto.
    - intros (s & Hs & Hu & E). exists s. split; [exact E|].
      apply filter_In. now rewrite Z.eqb_eq. }
  split; [apply H1 | apply H2].
Qed.

(** ** Streaks *)

Ltac decide_eqb :=
  match goal with
  | |- context [Z.eqb ?a ?b] =>
      first [ replace (Z.eqb a b) with true by (symmetry; apply Z.eqb_eq; lia)
            | replace (Z.eqb a b) with false by (symmetry; apply Z.eqb_neq; lia) ]
  end.

Ltac run_streak_loop :=
  unfold Sessions.streak_loop, Sessions.streak_body, Datetime.date_diff_days;
  cbn [Nat.eqb andb nth Nat.sub bind];
  repeat (decide_eqb; cbn -[Z.sub Z.add Z.eqb]).

(** C3. Base and multi-run cases of the streak computation: a user without
    sessions gets (0, 0); a user whose sessions are all dated today gets
    (1, 1); a user whose session dates are today, today-1, today-5, today-6
    and today-7 gets current 2 and longest 3.  The histories are given by
    their sets of dates, so any number of sessions may fall on one date. *)
Theorem streak_base_and_multi_run
  (empty only_today two_runs : list StudySession.t) (uid utcnow : Z) :
  let today := Datetime.date utcnow in
  session_dates empty uid [] ->
  session_dates only_today uid [today] ->
  session_dates two_runs uid [today; today - 1; today - 5; today - 6; today - 7] ->
  Sessions.get_streak empty uid utcnow = Ok200 (Sessions.mkStreakResult 0 0)
  /\ Sessions.get_streak only_today uid utcnow = Ok200 (Sessions.mkStreakResult 1 1)
  /\ Sessions.get_streak two_runs uid utcnow = Ok200 (Sessions.mkStreakResult 2 3).
Proof.
  intros today H0 H1 H5.
  repeat split.
  - rewrite (get_streak_on_dates _ _ _ _ H0); [reflexivity | constructor].
  - rewrite (get_streak_on_dates _ _ _ _ H1).
    + fold today. clearbody today. run_streak_loop. reflexivity.
    + repeat constructor.
  - rewrite (get_streak_on_dates _ _ _ _ H5).
    + fold today. clearbody today. run_streak_loop. reflexivity.
    + repeat (constructor; [|repeat (constructor; try lia)]). constructor.
Qed.

(** The three cases on sample histories, at noon of 2024-03-10. *)
Lemma streak_base_and_multi_run_witness :
  Sessions.get_streak Sample.no_sessions 1 Sample.noon
  = Ok200 (Sessions.mkStreakResult 0 0)
  /\ Sessions.get_streak Sample.today_twice 1 Sample.noon
     = Ok200 (Sessions.mkStreakResult 1 1)
  /\ Sessions.get_streak Sample.two_runs 1 Sample.noon
     = Ok200 (Sessions.mkStreakResult 2 3).
Proof.
  apply (streak_base_and_multi_run Sample.no_sessions Sample.today_twice
           Sample.two_runs 1 Sample.noon);
    apply session_dates_by_check; vm_compute; reflexivity.
Defined.

(** [today - timedelta(days=1)] fails only next to the ends of the calendar. *)
Lemma yesterday_spec (today : Z) :
  Datetime.date_sub_days today 1 =
  if (Datetime.MINORDINAL <=? today - 1) && (today - 1 <=? Datetime.MAXORDINAL)
  then Some (today - 1) else None.
Proof. reflexivity. Qed.

Lemma streak_body_inv (today : Z) (dates : list Z) (i : nat) (date : Z)
  (c : Sessions.counters) :
  counters_inv i c ->
  match Sessions.streak_body today dates i date c with
  | Some c' => counters_inv (S i) c'
  | None => i = 0%nat /\ Datetime.date_sub_days today 1 = None
  end.
Proof.
  intros (H1 & H2 & H3). unfold Sessions.streak_body.
  destruct i as [|[|i]]; cbn [Nat.eqb andb].
  - specialize (H3 (Nat.le_0_l _)).
    destruct (date =? today); cbn [bind].
    + unfold counters_inv; cbn. lia.
    + destruct (Datetime.date_sub_days today 1) as [y|]; cbn [bind]; [|auto].
      destruct (date =? y); cbn [bind]; unfold counters_inv; cbn; lia.
  - specialize (H3 (Nat.le_refl _)).
    destruct (_ =? 1); cbn [bind]; unfold counters_inv; cbn; lia.
  - clear H3.
    destruct (_ =? 1); cbn [bind]; unfold counters_inv; cbn; lia.
Qed.

Lemma streak_loop_inv (today : Z) (dates rest : list Z) :
  forall (i : nat) (c : Sessions.counters),
    counters_inv i c ->
    match Sessions.streak_loop today dates i rest c with
    | Some c' => Sessions.current c' <= 2 /\ Sessions.current c' <= Sessions.longest c'
    | None => Datetime.date_sub_days today 1 = None
    end.
Proof.
  induction rest as [|date rest IH]; intros i c Hc; cbn [Sessions.streak_loop].
  - destruct Hc as (H1 & H2 & _). auto.
  - pose proof (streak_body_inv today dates i date c Hc) as Hb.
    destruct (Sessions.streak_body today dates i date c) as [c'|]; cbn [bind].
    + now apply IH.
    + apply Hb.
Qed.

(** C10. Whatever the history and the clock, a streak result that
    [get_streak] returns has [current_streak <= 2] and
    [current_streak <= longest_streak]; the handler answers with a result
    unless [today - 1 day] is not a calendar date, and never with a 400. *)
Theorem streak_current_bounded (table : list StudySession.t) (uid utcnow : Z) :
  match Sessions.get_streak table uid utcnow with
  | Ok200 r =>
      Sessions.current_streak r <= 2
      /\ Sessions.current_streak r <= Sessions.longest_streak r
  | BadRequest400 _ => False
  | InternalError500 =>
      ~ (Datetime.MINORDINAL < Datetime.date utcnow <= Datetime.MAXORDINAL + 1)
  end.
Proof.
  unfold Sessions.get_streak.
  destruct (Sessions.sessions_desc table uid) as [|s ss].
  - cbn. lia.
  - set (dates := sorted_desc Z.ltb _).
    pose proof (streak_loop_inv (Datetime.date utcnow) dates dates 0%nat
                  (Sessions.mkCounters 0 0 0)) as H.
    destruct (Sessions.streak_loop _ _ _ _ _) as [c|]; cbn.
    + apply H. unfold counters_inv; cbn. lia.
    + assert (Datetime.date_sub_days (Datetime.date utcnow) 1 = None) as E
          by (apply H; unfold counters_inv; cbn; lia).
      rewrite yesterday_spec in E.
      destruct (_ <=? _) eqn:E1; destruct (_ <=? Datetime.MAXORDINAL) eqn:E2;
        cbn in E; try discriminate;
        rewrite ?Z.leb_le, ?Z.leb_gt in *;
        unfold Datetime.MINORDINAL, Datetime.MAXORDINAL in *; lia.
Qed.

(** ** A run of consecutive days ending today *)

Lemma nth_days_ending (n : nat) :
  forall (k : nat) (t : Z), (k < n)%nat -> nth k (days_ending t n) 0 = t - Z.of_nat k.
Proof.
  induction n as [|n IH]; intros k t Hk; [lia|].
  destruct k as [|k]; cbn [days_ending nth].
  - cbn. lia.
  - rewrite IH by lia. lia.
Qed.

Lemma days_ending_below (n : nat) :
  forall (t d : Z), In d (days_ending t n) -> d <= t.
Proof.
  induction n as [|n IH]; intros t d; cbn [days_ending In]; [tauto|].
  intros [<-|H]; [lia|]. apply IH in H. lia.
Qed.

Lemma days_ending_sorted (n : nat) (t : Z) : StronglySorted Z.gt (days_ending t n).
Proof.
  revert t. induction n as [|n IH]; intros t; cbn [days_ending]; constructor.
  - apply IH.
  - apply Forall_forall. intros d Hd. apply days_ending_below in Hd. lia.
Qed.

(** From index 2 on, each further day of the run extends [temp_streak] and
    [longest_streak] and leaves [current_streak] alone. *)
Lemma streak_loop_run (today t : Z) (n m : nat) :
  forall (i : nat) (cur v : Z),
    (2 <= i)%nat -> (i + m = n)%nat ->
    Sessions.streak_loop today (days_ending t n) i (days_ending (t - Z.of_nat i) m)
      (Sessions.mkCounters cur v v)
    = Some (Sessions.mkCounters cur (v + Z.of_nat m) (v + Z.of_nat m)).
Proof.
  induction m as [|m IH]; intros i cur v Hi Hn; cbn [days_ending Sessions.streak_loop].
  - do 2 f_equal; lia.
  - unfold Sessions.streak_body.
    destruct i as [|[|i]]; [lia | lia |]. cbn [Nat.eqb andb].
    replace (S (S i) - 1)%nat with (S i) by lia.
    rewrite nth_days_ending by lia. unfold Datetime.date_diff_days.
    decide_eqb. cbn [bind Sessions.current Sessions.longest Sessions.temp].
    replace (t - Z.of_nat (S (S i)) - 1) with (t - Z.of_nat (S (S (S i)))) by lia.
    replace (Z.max v (v + 1)) with (v + 1) by lia.
    rewrite IH by lia. do 2 f_equal; lia.
Qed.

(** X11. For a history whose dates are the [n] days ending today, [n >= 1],
    [get_streak] reports the longest streak [n] and the current streak
    [min n 2]. *)
Lemma streak_run_ending_today (table : list StudySession.t) (uid utcnow : Z) (n : nat) :
  (1 <= n)%nat ->
  session_dates table uid (days_ending (Datetime.date utcnow) n) ->
  Sessions.get_streak table uid utcnow
  = Ok200 (Sessions.mkStreakResult (Z.min (Z.of_nat n) 2) (Z.of_nat n)).
Proof.
  intros Hn Hds.
  rewrite (get_streak_on_dates _ _ _ _ Hds) by apply days_ending_sorted.
  set (today := Datetime.date utcnow). clearbody today. clear Hds.
  destruct n as [|[|n]]; [lia | |].
  - cbn [days_ending]. run_streak_loop. reflexivity.
  - cbn [days_ending Sessions.streak_loop]. unfold Sessions.streak_body.
    cbn [Nat.eqb andb nth Nat.sub bind]. unfold Datetime.date_diff_days.
    repeat (decide_eqb; cbn -[Z.sub Z.add Z.eqb Z.of_nat days_ending Sessions.streak_loop]).
    change (today :: today - 1 :: days_ending (today - 1 - 1) n)
      with (days_ending today (S (S n))).
    change (Z.max 1 (1 + 1)) with 2. change (1 + 1) with 2.
    replace (today - 1 - 1) with (today - Z.of_nat 2) by lia.
    rewrite streak_loop_run by lia.
    cbn [bind try_except Sessions.current Sessions.longest].
    do 2 f_equal; lia.
Qed.

(** C1. With sessions on today, today-1 and today-2 (the three consecutive
    days ending today) [get_streak] answers current_streak 2 and
    longest_streak 3: [current_streak] is assigned at indices 0 and 1 of the
    walk only, so it stops at 2 however long the run is. *)
Theorem streak_three_days_ending_today :
  session_dates Sample.three_days 1 (days_ending (Datetime.date Sample.noon) 3)
  /\ Sessions.get_streak Sample.three_days 1 Sample.noon
     = Ok200 (Sessions.mkStreakResult 2 3).
Proof.
  split.
  - apply session_dates_by_check. vm_compute. reflexivity.
  - vm_compute. reflexivity.
Qed.

(** C2. With sessions on today-5, today-4 and today-3 only, so none today
    or yesterday, [get_streak] answers current_streak 1 and longest_streak 2:
    the first date of the walk starts no run ([temp_streak] stays 0), and the
    assignment at index 1 copies the run length into [current_streak]. *)
Theorem streak_old_run :
  let today := Datetime.date Sample.noon in
  session_dates Sample.old_run 1 [today - 3; today - 4; today - 5]
  /\ Sessions.get_streak Sample.old_run 1 Sample.noon
     = Ok200 (Sessions.mkStreakResult 1 2).
Proof.
  split.
  - apply session_dates_by_check. vm_compute. reflexivity.
  - vm_compute. reflexivity.
Qed.

(** ** The window of [get_analytics] *)

Lemma sessions_in_range_In (table : list StudySession.t) (uid start_date end_date : Z)
  (s : StudySession.t) :
  In s (Sessions.sessions_in_range table uid start_date end_date) <->
  In s table
  /\ Subject.user_id (StudySession.subject s) = uid
  /\ start_date <= StudySession.timestamp s <= end_date.
Proof.
  unfold Sessions.sessions_in_range.
  rewrite filter_In, !andb_true_iff, Z.eqb_eq, !Z.leb_le. tauto.
Qed.

(** A representable window is computed and the request is served. *)
Lemma get_analytics_representable (table : list StudySession.t)
  (uid utcnow : Z) (arg : option Z) :
  let days := Sessions.args_get_days arg in
  let start_date := utcnow - days * Datetime.US_PER_DAY in
  window_representable utcnow days ->
  Sessions.get_analytics table uid utcnow arg
  = Ok200 (Sessions.analytics start_date utcnow days
             (Sessions.sessions_in_range table uid start_date utcnow)).
Proof.
  intros days start_date [[H1 H2] [H3 H4]].
  unfold Sessions.get_analytics, Datetime.timedelta_days, Datetime.datetime_sub.
  fold days.
  replace (- Datetime.MAX_DELTA_DAYS <=? days) with true
    by (symmetry; apply Z.leb_le; exact H1).
  replace (days <=? Datetime.MAX_DELTA_DAYS) with true
    by (symmetry; apply Z.leb_le; exact H2).
  cbn [andb bind]. fold start_date.
  replace (Datetime.DATETIME_MIN <=? start_date) with true
    by (symmetry; apply Z.leb_le; exact H3).
  replace (start_date <? Datetime.DATETIME_END) with true
    by (symmetry; apply Z.ltb_lt; exact H4).
  reflexivity.
Qed.

(** A served request had a representable window, and the body of the
    response is composed from the sessions of that window. *)
Lemma get_analytics_Ok (table : list StudySession.t) (uid utcnow : Z)
  (arg : option Z) (a : Sessions.Analytics) :
  Sessions.get_analytics table uid utcnow arg = Ok200 a ->
  let days := Sessions.args_get_days arg in
  let start_date := utcnow - days * Datetime.US_PER_DAY in
  window_representable utcnow days
  /\ a = Sessions.analytics start_date utcnow days
           (Sessions.sessions_in_range table uid start_date utcnow).
Proof.
  intros H days start_date.
  assert (window_representable utcnow days) as Hw.
  { unfold Sessions.get_analytics, Datetime.timedelta_days, Datetime.datetime_sub in H.
    fold days in H. unfold window_representable.
    destruct (- Datetime.MAX_DELTA_DAYS <=? days) eqn:E1;
      destruct (days <=? Datetime.MAX_DELTA_DAYS) eqn:E2;
      cbn [andb bind try_except] in H; try discriminate.
    fold start_date in H.
    destruct (Datetime.DATETIME_MIN <=? start_date) eqn:E3;
      destruct (start_date <? Datetime.DATETIME_END) eqn:E4;
      cbn [andb bind try_except] in H; try discriminate.
    apply Z.leb_le in E1, E2, E3. apply Z.ltb_lt in E4. auto. }
  split; [exact Hw|].
  rewrite (get_analytics_representable table uid utcnow arg Hw) in H.
  inversion H. reflexivity.
Qed.

(** C5. For a positive [days] the window of [get_analytics] is
    [[utcnow - days * 24h, utcnow]], closed at both ends: the response is
    composed from exactly the user's sessions with
    [start <= timestamp <= end], so a session at [start] and a session at
    [end] are in and sessions outside are out.  The window is taken to be
    one Python can represent. *)
Theorem analytics_window_inclusive (table : list StudySession.t)
  (uid utcnow days : Z) :
  0 < days ->
  window_representable utcnow days ->
  let start_date := utcnow - days * Datetime.US_PER_DAY in
  let end_date := utcnow in
  let filtered := Sessions.sessions_in_range table uid start_date end_date in
  Sessions.get_analytics table uid utcnow (Some days)
  = Ok200 (Sessions.analytics start_date end_date days filtered)
  /\ (forall s, In s filtered <->
                In s table
                /\ Subject.user_id (StudySession.subject s) = uid
                /\ start_date <= StudySession.timestamp s <= end_date)
  /\ (forall s, In s table -> Subject.user_id (StudySession.subject s) = uid ->
                StudySession.timestamp s = start_date -> In s filtered)
  /\ (forall s, In s table -> Subject.user_id (StudySession.subject s) = uid ->
                StudySession.timestamp s = end_date -> In s filtered)
  /\ (forall s, StudySession.timestamp s < start_date
                \/ end_date < StudySession.timestamp s -> ~ In s filtered).
Proof.
  intros Hpos Hw start_date end_date filtered.
  split; [apply (get_analytics_representable table uid utcnow (Some days) Hw)|].
  split; [intros s; apply sessions_in_range_In|].
  assert (start_date <= end_date)
    by (unfold start_date, end_date, Datetime.US_PER_DAY; lia).
  repeat split.
  - intros s H1 H2 H3. apply sessions_in_range_In. repeat split; auto; lia.
  - intros s H1 H2 H3. apply sessions_in_range_In. repeat split; auto; lia.
  - intros s H1 H2. apply sessions_in_range_In in H2. destruct H2 as (_ & _ & H2). lia.
Qed.

(** The week ending 2024-03-10T00:00:00 starts 2024-03-03T00:00:00; the
    sessions stamped at either end are kept, the two just outside are not. *)
Lemma analytics_window_inclusive_witness :
  Sessions.get_analytics Sample.window_table 1 Sample.midnight (Some 7)
  = Ok200 (Sessions.analytics Sample.week_start Sample.midnight 7
             [ Sample.at_instant 1 Sample.maths Sample.week_start;
               Sample.at_instant 2 Sample.physics Sample.midnight ]).
Proof.
  assert (0 < 7) as Hpos by lia.
  assert (window_representable Sample.midnight 7) as Hw by (vm_compute; intuition discriminate).
  exact (proj1 (analytics_window_inclusive Sample.window_table 1 Sample.midnight 7 Hpos Hw)).
Defined.

(** ** Non-positive [days] *)

(** C4, as stated, fails: with [days = -3] the handler answers 200 with a
    computed (empty) result, and with [days = 0] it answers 200 with the
    sessions stamped exactly [utcnow]. *)
Lemma analytics_serves_nonpositive_days :
  Sessions.get_analytics Sample.window_table 1 Sample.midnight (Some (-3))
  = Ok200 (Sessions.analytics (Sample.midnight + 3 * Datetime.US_PER_DAY)
             Sample.midnight (-3) [])
  /\ Sessions.get_analytics Sample.window_table 1 Sample.midnight (Some 0)
     = Ok200 (Sessions.analytics Sample.midnight Sample.midnight 0
                [ Sample.at_instant 2 Sample.physics Sample.midnight ]).
Proof. split; vm_compute; reflexivity. Qed.

(** C4, amended. A non-positive [days] whose window is representable is not
    rejected: the handler answers 200 with the result computed on
    [[utcnow - days * 24h, utcnow]] and echoes [days] unchanged; for a
    negative [days] that window holds no session, so the result is the one
    of an empty history. *)
Theorem analytics_nonpositive_days (table : list StudySession.t)
  (uid utcnow days : Z) :
  days <= 0 ->
  window_representable utcnow days ->
  let start_date := utcnow - days * Datetime.US_PER_DAY in
  Sessions.get_analytics table uid utcnow (Some days)
  = Ok200 (Sessions.analytics start_date utcnow days
             (Sessions.sessions_in_range table uid start_date utcnow))
  /\ utcnow <= start_date
  /\ (days < 0 ->
      Sessions.get_analytics table uid utcnow (Some days)
      = Ok200 (Sessions.analytics start_date utcnow days [])).
Proof.
  intros Hd Hw start_date.
  pose proof (get_analytics_representable table uid utcnow (Some days) Hw) as E.
  cbn [Sessions.args_get_days] in E. fold start_date in E.
  split; [exact E|].
  split; [unfold start_date, Datetime.US_PER_DAY; lia|].
  intros Hneg. rewrite E. do 2 f_equal.
  destruct (Sessions.sessions_in_range table uid start_date utcnow) as [|s l] eqn:Es;
    [reflexivity|].
  assert (In s (Sessions.sessions_in_range table uid start_date utcnow)) as Hin
      by (rewrite Es; now left).
  apply sessions_in_range_In in Hin. exfalso.
  unfold start_date, Datetime.US_PER_DAY in Hin. lia.
Qed.

(** [days = -3] on the sample table. *)
Lemma analytics_nonpositive_days_witness :
  Sessions.get_analytics Sample.window_table 1 Sample.midnight (Some (-3))
  = Ok200 (Sessions.analytics (Sample.midnight - -3 * Datetime.US_PER_DAY)
             Sample.midnight (-3) []).
Proof.
  assert (-3 <= 0) as Hd by lia.
  assert (-3 < 0) as Hneg by lia.
  assert (window_representable Sample.midnight (-3)) as Hw
      by (vm_compute; intuition discriminate).
  exact (proj2 (proj2 (analytics_nonpositive_days Sample.window_table 1
                         Sample.midnight (-3) Hd Hw)) Hneg).
Defined.

(** ** Sums *)

Lemma fold_Qplus_acc (l : list Q) (a : Q) :
  (fold_left Qplus l a == a + sum_Q l)%Q.
Proof.
  unfold sum_Q. revert a. induction l as [|x l IH]; intros a; cbn [fold_left].
  - ring.
  - rewrite (IH (a + x)%Q), (IH (0 + x)%Q). ring.
Qed.

Lemma sum_Q_cons (x : Q) (l : list Q) : (sum_Q (x :: l) == x + sum_Q l)%Q.
Proof.
  unfold sum_Q at 1. cbn [fold_left]. rewrite fold_Qplus_acc. ring.
Qed.


Lemma fold_Zplus_acc (l : list Z) (a : Z) : fold_left Z.add l a = a + sum_Z l.
Proof.
  unfold sum_Z. revert a. induction l as [|x l IH]; intros a; cbn [fold_left].
  - lia.
  - rewrite (IH (a + x)), (IH (0 + x)). lia.
Qed.

Lemma sum_Z_cons (x : Z) (l : list Z) : sum_Z (x :: l) = x + sum_Z l.
Proof.
  unfold sum_Z at 1. cbn [fold_left]. rewrite fold_Zplus_acc. lia.
Qed.


(** ** Grouping keeps totals *)

Section UpsertTotals.
Context {K V : Type} (eqb : K -> K -> bool).
Context (time : V -> Q) (count : V -> Z).


End UpsertTotals.



(** ** Rounding *)






(** ** Weekly insights *)

Section ExtremumFacts.
Context {A : Type} (key : A -> Q).

Lemma Qltb_false (x y : Q) : Qltb x y = false -> (y <= x)%Q.
Proof.
  unfold Qltb. intros H. apply negb_false_iff in H. now apply Qle_bool_iff.
Qed.

Lemma Qltb_true (x y : Q) : Qltb x y = true -> (x < y)%Q.
Proof.
  unfold Qltb. intros H. apply negb_true_iff in H.
  apply Qnot_le_lt. intros Hle. apply Qle_bool_iff in Hle. congruence.
Qed.

Lemma max_from_spec (l : list A) :
  forall best : A,
    In (max_from key best l) (best :: l)
    /\ forall x, In x (best :: l) -> (key x <= key (max_from key best l))%Q.
Proof.
  induction l as [|y l IH]; intros best; cbn [max_from].
  - split; [now left|]. intros x [<-|[]]. apply Qle_refl.
  - destruct (IH (if Qltb (key best) (key y) then y else best)) as [IH1 IH2].
    split.
    + destruct IH1 as [E|Hin]; [|right; now right].
      rewrite <- E. destruct (Qltb (key best) (key y)); [right; now left | now left].
    + intros x Hx.
      assert (key x <= key (if Qltb (key best) (key y) then y else best)
              \/ In x l)%Q as [Hle|Hin].
      { destruct Hx as [<-|[<-|Hx]]; [| |now right]; left;
          destruct (Qltb (key best) (key y)) eqn:E;
          try apply Qle_refl.
        - apply Qlt_le_weak. now apply Qltb_true.
        - now apply Qltb_false. }
      * eapply Qle_trans; [exact Hle|]. apply IH2. now left.
      * apply IH2. now right.
Qed.

Lemma min_from_spec (l : list A) :
  forall best : A,
    In (min_from key best l) (best :: l)
    /\ forall x, In x (best :: l) -> (key (min_from key best l) <= key x)%Q.
Proof.
  induction l as [|y l IH]; intros best; cbn [min_from].
  - split; [now left|]. intros x [<-|[]]. apply Qle_refl.
  - destruct (IH (if Qltb (key y) (key best) then y else best)) as [IH1 IH2].
    split.
    + destruct IH1 as [E|Hin]; [|right; now right].
      rewrite <- E. destruct (Qltb (key y) (key best)); [right; now left | now left].
    + intros x Hx.
      assert (key (if Qltb (key y) (key best) then y else best) <= key x
              \/ In x l)%Q as [Hle|Hin].
      { destruct Hx as [<-|[<-|Hx]]; [| |now right]; left;
          destruct (Qltb (key y) (key best)) eqn:E;
          try apply Qle_refl.
        - apply Qlt_le_weak. now apply Qltb_true.
        - now apply Qltb_false. }
      * eapply Qle_trans; [|exact Hle]. apply IH2. now left.
      * apply IH2. now right.
Qed.
End ExtremumFacts.

(** The composition never raises: the extrema are looked up on a non-empty
    dict only. *)
Lemma weekly_insights_Some (sd : Ai.StudyData) :
  exists most least : Ai.Extremum,
    Ai.weekly_insights sd
    = Some (Ai.mkInsights
              (py_round (sum_Q (map Ai.total_time (values (Ai.subjects sd)))) 2)
              (sum_Z (map Ai.sessions (values (Ai.subjects sd))))
              (py_round (Ai.avg_focus (Ai.subjects sd)) 1)
              most least
              (len (Ai.reflections sd)) (len (Ai.subjects sd)))
    /\ match Ai.subjects sd with
       | [] => most = Ai.placeholder /\ least = Ai.placeholder
       | x :: l =>
           most = Ai.extremum_of (max_from Ai.item_time x l)
           /\ least = Ai.extremum_of (min_from Ai.item_time x l)
       end.
Proof.
  unfold Ai.weekly_insights. destruct (Ai.subjects sd) as [|x l]; cbn.
  - exists Ai.placeholder, Ai.placeholder. auto.
  - eexists _, _. split; [reflexivity|]. split; reflexivity.
Qed.


(** C9. Once the study data of the week is fetched, the weekly insights are
    served with a 200: with no subject group, the most and the least studied
    entries are the placeholder (no name, time 0); otherwise they are
    groups of the data whose total time is maximal and minimal. *)
Theorem weekly_insights_extrema (users : list User.t) (table : list StudySession.t)
  (notes : list AudioNote.t) (uid utcnow : Z) (sd : Ai.StudyData) :
  Ai.get_study_data_for_ai users table notes utcnow uid 7 = Some sd ->
  exists ins,
    Ai.get_weekly_insights users table notes uid utcnow = Ok200 ins
    /\ (Ai.subjects sd = [] ->
        Ai.most_studied_subject ins = Ai.mkExtremum None 0
        /\ Ai.least_studied_subject ins = Ai.mkExtremum None 0)
    /\ (Ai.subjects sd <> [] ->
        exists most least,
          In most (Ai.subjects sd) /\ In least (Ai.subjects sd)
          /\ Ai.most_studied_subject ins
             = Ai.mkExtremum (Some (fst most)) (Ai.total_time (snd most))
          /\ Ai.least_studied_subject ins
             = Ai.mkExtremum (Some (fst least)) (Ai.total_time (snd least))
          /\ forall item, In item (Ai.subjects sd) ->
               (Ai.total_time (snd least) <= Ai.total_time (snd item)
                <= Ai.total_time (snd most))%Q).
Proof.
  intros Hsd. unfold Ai.get_weekly_insights. rewrite Hsd. cbn [bind].
  destruct (weekly_insights_Some sd) as (most & least & -> & Hx).
  eexists. split; [reflexivity|]. cbn [Ai.most_studied_subject Ai.least_studied_subject].
  destruct (Ai.subjects sd) as [|x l].
  - split; [intros _; exact Hx | intros H; now elim H].
  - split; [discriminate|]. intros _. destruct Hx as [-> ->].
    destruct (max_from_spec Ai.item_time l x) as [M1 M2].
    destruct (min_from_spec Ai.item_time l x) as [m1 m2].
    exists (max_from Ai.item_time x l), (min_from Ai.item_time x l).
    repeat split; auto.
    + apply (m2 item H).
    + apply (M2 item H).
Qed.

(** A week without sessions: both entries are the placeholder. *)
Lemma weekly_insights_extrema_witness :
  exists ins,
    Ai.get_weekly_insights [Sample.student] Sample.no_sessions [] 1 Sample.noon
    = Ok200 ins
    /\ Ai.most_studied_subject ins = Ai.mkExtremum None 0
    /\ Ai.least_studied_subject ins = Ai.mkExtremum None 0.
Proof.
  assert (Ai.get_study_data_for_ai [Sample.student] Sample.no_sessions [] Sample.noon 1 7
          = Some Sample.empty_week) as H by (vm_compute; reflexivity).
  destruct (weekly_insights_extrema [Sample.student] Sample.no_sessions [] 1
              Sample.noon Sample.empty_week H) as (ins & H1 & H2 & _).
  exists ins. split; [exact H1|]. apply H2. reflexivity.
Defined.

(** ** Rounding at the response boundary *)




(** ** Average focus per subject *)

(** X7. The average of [get_analytics] is the mean of the present focus
    levels, whatever the group. *)
Lemma analytics_average_is_mean_of_present (group : list StudySession.t) :
  Sessions.avg_focus group = mean_present_focus group.
Proof.
  assert (present_focus_sum_count group
          = (sum_Z (Sessions.focus_levels group), len (Sessions.focus_levels group)))
    as E.
  { induction group as [|s group IH]; [reflexivity|].
    cbn [present_focus_sum_count Sessions.focus_levels flat_map]. rewrite IH.
    destruct (StudySession.focus_level s) as [f|]; [|reflexivity].
    cbn [app]. rewrite sum_Z_cons. unfold len. cbn [List.length].
    fold (Sessions.focus_levels group). f_equal. lia. }
  unfold mean_present_focus, Sessions.avg_focus. rewrite E.
  destruct group as [|s group]; [reflexivity|].
  destruct (Sessions.focus_levels (s :: group)) as [|f l]; [reflexivity|].
  replace (len (f :: l) =? 0) with false; [reflexivity|].
  symmetry. apply Z.eqb_neq. unfold len. cbn [List.length]. lia.
Qed.

(** X15. The average of [get_subject_stats] divides the same sum by the number
    of all records of the group. *)
Lemma subject_stats_average_divides_by_all (group : list StudySession.t) :
  group <> [] ->
  Subjects.avg_focus group
  = (inject_Z (fst (present_focus_sum_count group)) / inject_Z (len group))%Q.
Proof.
  intros Hne.
  assert (sum_Z (map Subjects.focus_level_or_0 group)
          = fst (present_focus_sum_count group)) as E.
  { clear Hne. induction group as [|s group IH]; [reflexivity|].
    cbn [map present_focus_sum_count]. rewrite sum_Z_cons, IH.
    unfold Subjects.focus_level_or_0.
    destruct (present_focus_sum_count group) as [total n].
    destruct (StudySession.focus_level s) as [f|]; cbn [fst]; [|lia].
    destruct (Z.eqb_spec f 0); lia. }
  unfold Subjects.avg_focus. destruct group as [|s group]; [now elim Hne|].
  now rewrite E.
Qed.

(** C6. For one subject with focus levels 8, absent and 6,
    [get_subject_stats] computes the average (8 + 0 + 6) / 3 = 14/3 and
    reports 4.7: the absent level counts as 0 in the sum and as a record in
    the divisor.  On the same records [get_analytics] averages the present
    levels only, (8 + 6) / 2 = 7. *)
Theorem subject_stats_average_counts_absent_focus :
  map StudySession.focus_level
    (Subjects.study_sessions Sample.focus_gap Sample.maths)
  = [Some 8; None; Some 6]
  /\ (Subjects.avg_focus (Subjects.study_sessions Sample.focus_gap Sample.maths)
      == 14 # 3)%Q
  /\ (exists stats,
         Subjects.get_subject_stats [Sample.maths] Sample.focus_gap 1 = Ok200 [stats]
         /\ (Subjects.average_focus_level stats == 47 # 10)%Q)
  /\ (Sessions.avg_focus (Subjects.study_sessions Sample.focus_gap Sample.maths)
      == 7)%Q.
Proof.
  split; [vm_compute; reflexivity|].
  split; [vm_compute; reflexivity|].
  split; [|vm_compute; reflexivity].
  eexists. split; vm_compute; reflexivity.
Qed.

(** * Further properties *)

(** ** Lookup in a dict filled by a grouping loop *)

Section LookupFacts.
Context {K V : Type} (eqb : K -> K -> bool).
Hypothesis eqb_spec : forall a b, eqb a b = true <-> a = b.

Lemma eqb_refl' (a : K) : eqb a a = true.
Proof. now apply eqb_spec. Qed.

Lemma eqb_sym' (a b : K) : eqb a b = eqb b a.
Proof.
  destruct (eqb a b) eqn:E1, (eqb b a) eqn:E2; try reflexivity.
  - apply eqb_spec in E1. subst. rewrite eqb_refl' in E2. discriminate.
  - apply eqb_spec in E2. subst. rewrite eqb_refl' in E1. discriminate.
Qed.

Lemma contains_get (k : K) (d : dict K V) :
  contains eqb k d = match get eqb k d with Some _ => true | None => false end.
Proof.
  induction d as [|[k' v] d IH]; cbn [contains get]; [reflexivity|].
  destruct (eqb k k'); [reflexivity | exact IH].
Qed.

Lemma get_In_keys (k : K) (d : dict K V) :
  In k (keys d) <-> get eqb k d <> None.
Proof.
  rewrite <- (contains_In eqb eqb_spec), contains_get.
  destruct (get eqb k d); split; congruence.
Qed.

Lemma get_modify (k k0 : K) (f : V -> V) (d : dict K V) :
  get eqb k (modify eqb k0 f d)
  = if eqb k k0 then option_map f (get eqb k0 d) else get eqb k d.
Proof.
  induction d as [|[k' v] d IH]; cbn [modify get].
  - now destruct (eqb k k0).
  - destruct (eqb k0 k') eqn:E0; cbn [get].
    + apply eqb_spec in E0. subst k'.
      destruct (eqb k k0); reflexivity.
    + rewrite IH. destruct (eqb k k') eqn:E1; [|reflexivity].
      apply eqb_spec in E1. subst k'.
      destruct (eqb k k0) eqn:E2; [|reflexivity].
      apply eqb_spec in E2. subst k0. rewrite eqb_refl' in E0. discriminate.
Qed.

Lemma get_app (k : K) (d1 d2 : dict K V) :
  get eqb k (d1 ++ d2)
  = match get eqb k d1 with Some v => Some v | None => get eqb k d2 end.
Proof.
  induction d1 as [|[k' v] d1 IH]; cbn [app get]; [reflexivity|].
  destruct (eqb k k'); [reflexivity | exact IH].
Qed.

(** [d[k]] after [if k0 not in d: d[k0] = init], [d[k0] = f(d[k0])]. *)
Lemma get_upsert (k k0 : K) (init : V) (f : V -> V) (d : dict K V) :
  get eqb k (upsert eqb k0 init f d)
  = if eqb k k0
    then Some (f (match get eqb k0 d with Some v => v | None => init end))
    else get eqb k d.
Proof.
  unfold upsert. rewrite contains_get.
  destruct (get eqb k0 d) as [v0|] eqn:E0.
  - rewrite get_modify, E0. reflexivity.
  - rewrite get_app. cbn [get]. destruct (eqb k k0) eqn:E.
    + apply eqb_spec in E. subst k0. now rewrite E0.
    + now destruct (get eqb k d).
Qed.

(** After the loop [for x in xs: upsert(key(x), init(x), f(x))], the value
    under [k] is the fold of [f] over the elements of [xs] with key [k], in
    their order, from the value [k] had before or else from [init] of the
    first of them. *)
Lemma get_fold_upsert {X : Type} (key : X -> K) (init : X -> V)
  (f : X -> V -> V) (k : K) (xs : list X) :
  forall d : dict K V,
    get eqb k (fold_left (fun d x => upsert eqb (key x) (init x) (f x) d) xs d)
    = match filter (fun x => eqb (key x) k) xs with
      | [] => get eqb k d
      | x0 :: _ =>
          Some (fold_left (fun v x => f x v)
                  (filter (fun x => eqb (key x) k) xs)
                  (match get eqb k d with Some v => v | None => init x0 end))
      end.
Proof.
  induction xs as [|x xs IH]; intros d; cbn [fold_left filter]; [reflexivity|].
  rewrite IH, get_upsert, (eqb_sym' k (key x)).
  destruct (eqb (key x) k) eqn:E.
  - apply eqb_spec in E. subst k. cbn [fold_left].
    destruct (filter (fun x1 => eqb (key x1) (key x)) xs); reflexivity.
  - reflexivity.
Qed.

Lemma filter_filter {A : Type} (p q : A -> bool) (l : list A) :
  filter p (filter q l) = filter (fun a => q a && p a) l.
Proof.
  induction l as [|a l IH]; cbn [filter]; [reflexivity|].
  destruct (q a); cbn [filter andb]; [destruct (p a)|]; now rewrite IH.
Qed.

(** The keys of the dict come in first-seen order. *)
Lemma keys_fold_upsert {X : Type} (key : X -> K) (init : X -> V)
  (f : X -> V -> V) (xs : list X) :
  forall d : dict K V,
    keys (fold_left (fun d x => upsert eqb (key x) (init x) (f x) d) xs d)
    = keys d
      ++ filter (fun k => negb (contains eqb k d)) (first_seen eqb (map key xs)).
Proof.
  induction xs as [|x xs IH]; intros d; cbn [fold_left map first_seen filter].
  - now rewrite app_nil_r.
  - rewrite IH, keys_upsert. rewrite filter_filter.
    destruct (contains eqb (key x) d) eqn:E; cbn [negb].
    + f_equal. apply filter_ext_in. intros k _.
      unfold upsert. rewrite E.
      assert (contains eqb k (modify eqb (key x) (f x) d) = contains eqb k d) as ->.
      { rewrite !contains_get, get_modify. destruct (eqb k (key x)) eqn:Ek; [|reflexivity].
        apply eqb_spec in Ek. subst k. rewrite contains_get in E.
        now destruct (get eqb (key x) d). }
      destruct (eqb k (key x)) eqn:Ek; cbn [negb andb]; [|reflexivity].
      apply eqb_spec in Ek. subst k. now rewrite E.
    + rewrite <- app_assoc. cbn [app]. do 2 f_equal.
      apply filter_ext_in. intros k _.
      unfold upsert. rewrite E, !contains_get, get_app. cbn [get].
      rewrite contains_get in E.
      destruct (eqb k (key x)) eqn:Ek; cbn [negb andb].
      * apply eqb_spec in Ek. subst k.
        destruct (get eqb (key x) d); [discriminate | reflexivity].
      * now destruct (get eqb k d).
Qed.
End LookupFacts.

Lemma filter_all {A : Type} (l : list A) : filter (fun _ => true) l = l.
Proof. induction l as [|a l IH]; cbn; [reflexivity | now rewrite IH]. Qed.

Lemma keys_grouping {K V X : Type} (eqb : K -> K -> bool)
  (eqb_spec : forall a b, eqb a b = true <-> a = b)
  (key : X -> K) (init : X -> V) (f : X -> V -> V) (xs : list X) :
  keys (fold_left (fun d x => upsert eqb (key x) (init x) (f x) d) xs [])
  = first_seen eqb (map key xs).
Proof.
  rewrite (keys_fold_upsert eqb eqb_spec). cbn [keys map app contains negb].
  apply filter_all.
Qed.

(** ** The breakdowns of [get_analytics] *)

Lemma subject_entry_fold (group : list StudySession.t) :
  forall e : Sessions.SubjectEntry,
    let e' :=
      fold_left
        (fun (v : Sessions.SubjectEntry) s =>
           let (t, n, c) := v in
           Sessions.mkSubjectEntry (t + StudySession.time_spent s)%Q (n + 1) c)
        group e in
    (Sessions.time e' == Sessions.time e + sum_Q (map StudySession.time_spent group))%Q
    /\ Sessions.sessions e' = Sessions.sessions e + len group
    /\ Sessions.color e' = Sessions.color e.
Proof.
  induction group as [|s group IH]; intros e; cbn [fold_left map].
  - unfold len. cbn. repeat split; [ring | lia].
  - destruct (IH (let (t, n, c) := e in
                  Sessions.mkSubjectEntry (t + StudySession.time_spent s)%Q (n + 1) c))
      as (H1 & H2 & H3).
    cbn zeta. rewrite H1, H2, H3, sum_Q_cons. destruct e as [t n c].
    unfold len. cbn [Sessions.time Sessions.sessions Sessions.color List.length].
    repeat split; [ring | lia].
Qed.

(** X2. The per-subject entry of the breakdown: a subject name without
    sessions has no entry; otherwise its entry counts the sessions with that
    name, adds up their times and carries the color of the first of them. *)
Theorem subject_breakdown_lookup (sessions : list StudySession.t) (subject_name : string) :
  let group :=
    filter (fun s => String.eqb (Subject.name (StudySession.subject s)) subject_name)
      sessions in
  match get String.eqb subject_name (Sessions.subject_data sessions) with
  | None => group = []
  | Some e =>
      exists first rest,
        group = first :: rest
        /\ Sessions.sessions e = len group
        /\ (Sessions.time e == sum_Q (map StudySession.time_spent group))%Q
        /\ Sessions.color e = Subject.color (StudySession.subject first)
  end.
Proof.
  intros group. unfold Sessions.subject_data.
  rewrite (get_fold_upsert String.eqb String.eqb_eq
             (fun s => Subject.name (StudySession.subject s))
             (fun s => Sessions.mkSubjectEntry 0 0
                         (Subject.color (StudySession.subject s)))
             (fun s (e : Sessions.SubjectEntry) => let (t, n, c) := e in
                         Sessions.mkSubjectEntry (t + StudySession.time_spent s)%Q
                           (n + 1) c)).
  fold group. cbn [get].
  destruct group as [|first rest] eqn:E; [reflexivity|].
  exists first, rest. split; [reflexivity|].
  destruct (subject_entry_fold (first :: rest)
              (Sessions.mkSubjectEntry 0 0 (Subject.color (StudySession.subject first))))
    as (H1 & H2 & H3).
  cbn zeta in H1, H2, H3. rewrite H1, H2, H3.
  cbn [Sessions.time Sessions.sessions Sessions.color].
  split; [lia|]. split; [ring | reflexivity].
Qed.

Lemma day_entry_fold (group : list StudySession.t) :
  forall e : Sessions.DayEntry,
    let e' :=
      fold_left
        (fun v s => Sessions.mkDayEntry
                      (Sessions.day_time v + StudySession.time_spent s)%Q
                      (Sessions.day_sessions v + 1))
        group e in
    (Sessions.day_time e'
     == Sessions.day_time e + sum_Q (map StudySession.time_spent group))%Q
    /\ Sessions.day_sessions e' = Sessions.day_sessions e + len group.
Proof.
  induction group as [|s group IH]; intros e; cbn [fold_left map].
  - unfold len. cbn. split; [ring | lia].
  - destruct (IH (Sessions.mkDayEntry
                    (Sessions.day_time e + StudySession.time_spent s)%Q
                    (Sessions.day_sessions e + 1))) as (H1 & H2).
    cbn zeta. rewrite H1, H2, sum_Q_cons.
    unfold len. cbn [Sessions.day_time Sessions.day_sessions List.length].
    split; [ring | lia].
Qed.

(** X3. The per-day entry of the breakdown: a date without sessions has no
    entry; otherwise its entry counts the sessions of that date and adds up
    their times. *)
Theorem daily_breakdown_lookup (sessions : list StudySession.t) (day : Z) :
  let group :=
    filter (fun s => Datetime.date (StudySession.timestamp s) =? day) sessions in
  match get Z.eqb day (Sessions.daily_data sessions) with
  | None => group = []
  | Some e =>
      group <> []
      /\ Sessions.day_sessions e = len group
      /\ (Sessions.day_time e == sum_Q (map StudySession.time_spent group))%Q
  end.
Proof.
  intros group. unfold Sessions.daily_data.
  rewrite (get_fold_upsert Z.eqb Z.eqb_eq
             (fun s => Datetime.date (StudySession.timestamp s))
             (fun _ => Sessions.mkDayEntry 0 0)
             (fun s e => Sessions.mkDayEntry
                           (Sessions.day_time e + StudySession.time_spent s)%Q
                           (Sessions.day_sessions e + 1))).
  fold group. cbn [get].
  destruct group as [|first rest] eqn:E; [reflexivity|].
  destruct (day_entry_fold (first :: rest) (Sessions.mkDayEntry 0 0)) as (H1 & H2).
  cbn zeta in H1, H2. rewrite H1, H2. cbn [Sessions.day_time Sessions.day_sessions].
  split; [discriminate|]. split; [lia | ring].
Qed.

(** X4. Both breakdowns list their keys in first-seen order: each subject
    name, and each date, once, at the place of its first session. *)
Theorem breakdown_keys_first_seen (sessions : list StudySession.t) :
  keys (Sessions.subject_data sessions)
  = first_seen String.eqb
      (map (fun s => Subject.name (StudySession.subject s)) sessions)
  /\ keys (Sessions.daily_data sessions)
     = first_seen Z.eqb
         (map (fun s => Datetime.date (StudySession.timestamp s)) sessions).
Proof.
  split.
  - apply (keys_grouping String.eqb String.eqb_eq
             (fun s => Subject.name (StudySession.subject s))
             (fun s => Sessions.mkSubjectEntry 0 0
                         (Subject.color (StudySession.subject s)))
             (fun s (e : Sessions.SubjectEntry) => let (t, n, c) := e in
                         Sessions.mkSubjectEntry (t + StudySession.time_spent s)%Q
                           (n + 1) c)).
  - apply (keys_grouping Z.eqb Z.eqb_eq
             (fun s => Datetime.date (StudySession.timestamp s))
             (fun _ => Sessions.mkDayEntry 0 0)
             (fun s e => Sessions.mkDayEntry
                           (Sessions.day_time e + StudySession.time_spent s)%Q
                           (Sessions.day_sessions e + 1))).
Qed.


(** ** The walk of [get_streak] *)

Lemma descending_strict (l : list Z) :
  StronglySorted Z.ge l -> NoDup l -> StronglySorted Z.gt l.
Proof.
  induction 1 as [|a l Hs IH Ha]; intros Hnd; constructor.
  - apply IH. now inversion Hnd.
  - inversion Hnd as [|? ? Hnotin _]; subst. rewrite Forall_forall in *.
    intros d Hd. specialize (Ha d Hd).
    assert (d <> a) by (intros ->; contradiction). lia.
Qed.

(** Every history has a descending enumeration of its session dates. *)
Lemma session_dates_exist (table : list StudySession.t) (uid : Z) :
  exists ds, session_dates table uid ds /\ StronglySorted Z.gt ds.
Proof.
  destruct (sessions_by_date_keys (Sessions.sessions_desc table uid)) as [Hnd Hin].
  exists (sorted_desc Z.ltb (keys (Sessions.sessions_by_date (Sessions.sessions_desc table uid)))).
  split.
  - intros d. split.
    + intros H. apply (Permutation_in _ (sorted_desc_perm _ _)) in H.
      apply Hin in H. apply in_map_iff in H as (s & E & Hs).
      apply sessions_desc_In in Hs. exists s. tauto.
    + intros (s & H1 & H2 & H3).
      apply (Permutation_in _ (Permutation_sym (sorted_desc_perm _ _))).
      apply Hin. apply in_map_iff. exists s. split; [exact H3|].
      now apply sessions_desc_In.
  - apply descending_strict; [apply sorted_desc_sorted|].
    eapply Permutation_NoDup; [|exact Hnd]. symmetry. apply sorted_desc_perm.
Qed.

(** X8. [get_streak] depends on the set of the user's session dates only:
    two histories with the same dates get the same answer, whatever the
    number, the order and the other fields of their sessions. *)
Theorem get_streak_depends_on_dates (table1 table2 : list StudySession.t)
  (uid1 uid2 utcnow : Z) :
  (forall d, In d (dates_of table1 uid1) <-> In d (dates_of table2 uid2)) ->
  Sessions.get_streak table1 uid1 utcnow = Sessions.get_streak table2 uid2 utcnow.
Proof.
  intros H.
  assert (forall table uid d,
             In d (dates_of table uid) <->
             exists s, In s table
                       /\ Subject.user_id (StudySession.subject s) = uid
                       /\ Datetime.date (StudySession.timestamp s) = d) as Hd.
  { intros table uid d. unfold dates_of. rewrite in_map_iff. split.
    - intros (s & E & Hs). apply filter_In in Hs. rewrite Z.eqb_eq in Hs.
      exists s. tauto.
    - intros (s & Hs & Hu & E). exists s. split; [exact E|].
      apply filter_In. now rewrite Z.eqb_eq. }
  destruct (session_dates_exist table1 uid1) as (ds & H1 & Hs).
  assert (session_dates table2 uid2 ds) as H2.
  { intros d. rewrite (H1 d), <- !Hd. apply H. }
  rewrite (get_streak_on_dates _ _ _ _ H1 Hs), (get_streak_on_dates _ _ _ _ H2 Hs).
  reflexivity.
Qed.

Lemma get_streak_depends_on_dates_witness :
  Sessions.get_streak Sample.three_days 1 Sample.noon
  = Sessions.get_streak (Sample.three_days ++ rev Sample.three_days) 1 Sample.noon.
Proof.
  apply get_streak_depends_on_dates.
  intros d. unfold dates_of. rewrite filter_app, map_app, in_app_iff.
  rewrite filter_rev, map_rev, <- in_rev. tauto.
Defined.

(** From index 1 on, the loop of [get_streak] is the walk that carries the
    previous date along; it cannot fail. *)
Lemma streak_loop_walk (today : Z) (rest : list Z) :
  forall (pre : list Z) (p : Z) (c : Sessions.counters),
    Sessions.streak_loop today (pre ++ p :: rest) (S (List.length pre)) rest c
    = Some (streak_walk (S (List.length pre)) p rest c).
Proof.
  induction rest as [|d rest IH]; intros pre p c;
    cbn [Sessions.streak_loop streak_walk]; [reflexivity|].
  unfold Sessions.streak_body. cbn [Nat.eqb andb].
  replace (S (List.length pre) - 1)%nat with (List.length pre) by lia.
  rewrite nth_middle. unfold Datetime.date_diff_days.
  assert (forall o : option Sessions.counters, forall c',
             o = Some c' ->
             bind (bind o (fun c1 =>
                     Some (Sessions.mkCounters (Sessions.current c1)
                             (Z.max (Sessions.longest c1) (Sessions.temp c1))
                             (Sessions.temp c1))))
               (fun c'' => Sessions.streak_loop today (pre ++ p :: d :: rest)
                             (S (S (List.length pre))) rest c'')
             = Sessions.streak_loop today (pre ++ p :: d :: rest)
                 (S (S (List.length pre))) rest
                 (Sessions.mkCounters (Sessions.current c')
                    (Z.max (Sessions.longest c') (Sessions.temp c'))
                    (Sessions.temp c'))) as Hb
      by (intros o c' ->; reflexivity).
  specialize (IH (pre ++ [p]) d). rewrite <- app_assoc in IH. cbn [app] in IH.
  rewrite length_app in IH. cbn [List.length] in IH.
  replace (List.length pre + 1)%nat with (S (List.length pre)) in IH by lia.
  unfold streak_step. destruct (p - d =? 1).
  - erewrite Hb by reflexivity. apply IH.
  - erewrite Hb by reflexivity. apply IH.
Qed.

Lemma streak_walk_current (rest : list Z) :
  forall (i : nat) (p : Z) (c : Sessions.counters),
    (2 <= i)%nat ->
    Sessions.current (streak_walk i p rest c) = Sessions.current c.
Proof.
  induction rest as [|d rest IH]; intros i p c Hi; cbn [streak_walk]; [reflexivity|].
  rewrite IH by lia. unfold streak_step.
  destruct i as [|[|i]]; [lia | lia |]. cbn [Nat.eqb].
  destruct (p - d =? 1); reflexivity.
Qed.

Lemma streak_walk_longest (rest : list Z) :
  forall (i : nat) (p best : Z) (c : Sessions.counters),
    Sessions.longest c = Z.max best (Sessions.temp c) ->
    Sessions.longest (streak_walk i p rest c)
    = longest_run_from p (Sessions.temp c) best rest.
Proof.
  induction rest as [|d rest IH]; intros i p best c Hc;
    cbn [streak_walk longest_run_from]; [exact Hc|].
  unfold streak_step. destruct (p - d =? 1).
  - rewrite (IH _ _ best); cbn [Sessions.temp Sessions.longest]; [reflexivity | lia].
  - rewrite (IH _ _ (Z.max best (Sessions.temp c)));
      cbn [Sessions.temp Sessions.longest]; [reflexivity | lia].
Qed.

(** X9. When the newest session date is today or yesterday, the walk is
    anchored: [longest_streak] is the length of the longest run of
    consecutive dates of the whole history, and [current_streak] is 2 when
    the next date is the day before the newest one and 1 otherwise. *)
Theorem streak_anchored (table : list StudySession.t) (uid utcnow d0 : Z)
  (rest : list Z) :
  let today := Datetime.date utcnow in
  session_dates table uid (d0 :: rest) ->
  StronglySorted Z.gt (d0 :: rest) ->
  Datetime.MINORDINAL < today <= Datetime.MAXORDINAL ->
  d0 = today \/ d0 = today - 1 ->
  Sessions.get_streak table uid utcnow
  = Ok200 (Sessions.mkStreakResult
             (match rest with
              | d1 :: _ => if d0 - d1 =? 1 then 2 else 1
              | [] => 1
              end)
             (longest_run (d0 :: rest))).
Proof.
  intros today Hds Hs Ht Hd0.
  rewrite (get_streak_on_dates _ _ _ _ Hds Hs). fold today. clearbody today.
  cbn [Sessions.streak_loop]. unfold Sessions.streak_body at 1.
  cbn [Nat.eqb andb].
  assert ((if d0 =? today
           then Some (Sessions.mkCounters 1 0 1)
           else
             bind (Datetime.date_sub_days today 1)
               (fun yesterday =>
                  if d0 =? yesterday then Some (Sessions.mkCounters 1 0 1)
                  else Some (Sessions.mkCounters 0 0 0)))
          = Some (Sessions.mkCounters 1 0 1)) as E.
  { destruct (Z.eqb_spec d0 today) as [|Hne]; [reflexivity|].
    rewrite yesterday_spec.
    replace (Datetime.MINORDINAL <=? today - 1) with true
      by (symmetry; apply Z.leb_le; lia).
    replace (today - 1 <=? Datetime.MAXORDINAL) with true
      by (symmetry; apply Z.leb_le; lia).
    cbn [andb bind]. destruct Hd0 as [Heq | ->]; [contradiction|].
    now rewrite Z.eqb_refl. }
  cbn [Sessions.longest] in *. rewrite E. cbn [bind Sessions.current Sessions.longest Sessions.temp].
  change (Z.max 0 1) with 1.
  rewrite (streak_loop_walk today rest [] d0). cbn [List.length bind try_except].
  do 2 f_equal.
  - destruct rest as [|d1 rest']; [reflexivity|]. cbn [streak_walk].
    rewrite streak_walk_current by lia. unfold streak_step. cbn [Nat.eqb].
    destruct (d0 - d1 =? 1); reflexivity.
  - apply (streak_walk_longest rest 1%nat d0 0). reflexivity.
Qed.

Lemma streak_anchored_witness :
  Sessions.get_streak Sample.two_runs 1 Sample.noon
  = Ok200 (Sessions.mkStreakResult 2 3).
Proof.
  pose (today := Datetime.date Sample.noon).
  assert (session_dates Sample.two_runs 1
            (today :: [today - 1; today - 5; today - 6; today - 7])) as H1
      by (apply session_dates_by_check; vm_compute; reflexivity).
  assert (StronglySorted Z.gt (today :: [today - 1; today - 5; today - 6; today - 7]))
    as H2 by (repeat (constructor; [|repeat (constructor; try (vm_compute; reflexivity))]);
              constructor).
  assert (Datetime.MINORDINAL < Datetime.date Sample.noon <= Datetime.MAXORDINAL) as H3
      by (vm_compute; intuition discriminate).
  assert (today = Datetime.date Sample.noon \/ today = Datetime.date Sample.noon - 1)
    as H4 by (left; reflexivity).
  exact (streak_anchored Sample.two_runs 1 Sample.noon today
           [today - 1; today - 5; today - 6; today - 7] H1 H2 H3 H4).
Defined.

Lemma streak_loop_range (today : Z) (dates rest : list Z) :
  forall (i : nat) (c c' : Sessions.counters),
    0 <= Sessions.current c ->
    0 <= Sessions.temp c <= Z.of_nat i ->
    0 <= Sessions.longest c <= Z.of_nat i ->
    Sessions.streak_loop today dates i rest c = Some c' ->
    0 <= Sessions.current c'
    /\ 0 <= Sessions.longest c' <= Z.of_nat (i + List.length rest).
Proof.
  induction rest as [|d rest IH]; intros i c c' H1 H2 H3 E;
    cbn [Sessions.streak_loop] in E.
  - inversion E; subst. rewrite Nat.add_0_r. auto.
  - destruct (Sessions.streak_body today dates i d c) as [c1|] eqn:Eb;
      cbn [bind] in E; [|discriminate].
    cbn [List.length]. replace (i + S (List.length rest))%nat
      with (S i + List.length rest)%nat by lia.
    apply (IH (S i) c1 c'); [| | |exact E]; clear IH E;
      unfold Sessions.streak_body in Eb;
      destruct i as [|i]; cbn [Nat.eqb andb] in Eb;
      repeat match type of Eb with
        | context [if ?b then _ else _] => destruct b; cbn [bind] in Eb
        | context [Datetime.date_sub_days ?t ?n] =>
            destruct (Datetime.date_sub_days t n); cbn [bind] in Eb
        end;
      try discriminate; inversion Eb; subst; cbn; lia.
Qed.

(** X10. A streak result is never negative and never longer than the
    history: [0 <= current_streak] and [longest_streak] is at most the number
    of distinct dates with a session. *)
Theorem streak_within_history (table : list StudySession.t) (uid utcnow : Z)
  (ds : list Z) (r : Sessions.StreakResult) :
  session_dates table uid ds ->
  NoDup ds ->
  Sessions.get_streak table uid utcnow = Ok200 r ->
  0 <= Sessions.current_streak r
  /\ 0 <= Sessions.longest_streak r <= len ds.
Proof.
  intros Hds Hnd E.
  destruct (session_dates_exist table uid) as (ds0 & Hds0 & Hs0).
  assert (List.length ds0 = List.length ds) as Hlen.
  { apply Permutation_length. apply NoDup_Permutation;
      [now apply descending_NoDup | exact Hnd|].
    intros d. rewrite (Hds0 d), (Hds d). tauto. }
  rewrite (get_streak_on_dates _ _ _ _ Hds0 Hs0) in E.
  destruct (Sessions.streak_loop (Datetime.date utcnow) ds0 0 ds0
              (Sessions.mkCounters 0 0 0)) as [c|] eqn:El;
    cbn [bind try_except] in E; [|discriminate].
  inversion E; subst r. cbn [Sessions.current_streak Sessions.longest_streak].
  unfold len. rewrite <- Hlen.
  apply (streak_loop_range _ _ _ _ _ _) in El; cbn in *; lia.
Qed.

Lemma streak_within_history_witness :
  let r := Sessions.mkStreakResult 2 3 in
  0 <= Sessions.current_streak r /\ 0 <= Sessions.longest_streak r <= 5.
Proof.
  pose (today := Datetime.date Sample.noon).
  assert (session_dates Sample.two_runs 1
            [today; today - 1; today - 5; today - 6; today - 7]) as H1
      by (apply session_dates_by_check; vm_compute; reflexivity).
  assert (NoDup [today; today - 1; today - 5; today - 6; today - 7]) as H2
      by (repeat constructor; cbn; intuition discriminate).
  assert (Sessions.get_streak Sample.two_runs 1 Sample.noon
          = Ok200 (Sessions.mkStreakResult 2 3)) as H3 by (vm_compute; reflexivity).
  exact (streak_within_history Sample.two_runs 1 Sample.noon _ _ H1 H2 H3).
Defined.

Lemma streak_run_ending_today_witness :
  Sessions.get_streak Sample.three_days 1 Sample.noon
  = Ok200 (Sessions.mkStreakResult (Z.min (Z.of_nat 3) 2) (Z.of_nat 3)).
Proof.
  assert (1 <= 3)%nat as Hn by lia.
  assert (session_dates Sample.three_days 1 (days_ending (Datetime.date Sample.noon) 3))
    as Hds by (apply session_dates_by_check; vm_compute; reflexivity).
  exact (streak_run_ending_today Sample.three_days 1 Sample.noon 3 Hn Hds).
Defined.

(** ** The answers of [get_analytics] *)

(** X1. [get_analytics] answers 200 exactly when Python can represent the
    window (at most 999999999 days either way and a start within the years
    1..9999), and 500 otherwise; it has no other answer. *)
Theorem get_analytics_status (table : list StudySession.t) (uid utcnow : Z)
  (arg : option Z) :
  let days := Sessions.args_get_days arg in
  let start_date := utcnow - days * Datetime.US_PER_DAY in
  (window_representable utcnow days
   /\ Sessions.get_analytics table uid utcnow arg
      = Ok200 (Sessions.analytics start_date utcnow days
                 (Sessions.sessions_in_range table uid start_date utcnow)))
  \/ (~ window_representable utcnow days
      /\ Sessions.get_analytics table uid utcnow arg = InternalError500).
Proof.
  intros days start_date.
  destruct (Sessions.get_analytics table uid utcnow arg) as [a| |] eqn:E.
  - apply get_analytics_Ok in E as [Hw ->]. left. split; [exact Hw | reflexivity].
  - unfold Sessions.get_analytics in E.
    destruct (bind _ _) in E; discriminate.
  - right. split; [|reflexivity]. intros Hw.
    rewrite (get_analytics_representable table uid utcnow arg Hw) in E. discriminate.
Qed.

(** ** [get_subject_stats] *)

Section SortedByTime.
Context {A : Type} (key : A -> Q).

Lemma insert_desc_sorted_by (x : A) (l : list A) :
  StronglySorted (fun a b => (key b <= key a)%Q) l ->
  StronglySorted (fun a b => (key b <= key a)%Q)
    (insert_desc (fun a b => Qltb (key a) (key b)) x l).
Proof.
  induction 1 as [|y ys Hs IH Hy]; cbn [insert_desc].
  - repeat constructor.
  - destruct (Qltb (key x) (key y)) eqn:E.
    + apply Qltb_true in E. constructor; [exact IH|].
      rewrite Forall_forall in *. intros z Hz.
      apply (Permutation_in _ (insert_desc_perm _ x ys)) in Hz.
      destruct Hz as [<-|Hz]; [now apply Qlt_le_weak | auto].
    + apply Qltb_false in E. constructor; [now constructor|].
      constructor; [exact E|].
      rewrite Forall_forall in *. intros z Hz. specialize (Hy z Hz).
      cbn beta in *. eapply Qle_trans; eassumption.
Qed.

Lemma sorted_desc_sorted_by (l : list A) :
  StronglySorted (fun a b => (key b <= key a)%Q)
    (sorted_desc (fun a b => Qltb (key a) (key b)) l).
Proof.
  induction l; cbn; [constructor | now apply insert_desc_sorted_by].
Qed.
End SortedByTime.

(** X13. [get_subject_stats] always answers 200, with one entry for each
    subject of the user and no other, listed by descending total study
    time. *)
Theorem get_subject_stats_sorted (subject_table : list Subject.t)
  (table : list StudySession.t) (uid : Z) :
  exists stats,
    Subjects.get_subject_stats subject_table table uid = Ok200 stats
    /\ Permutation stats
         (map (Subjects.subject_stats table)
            (filter (fun s => Subject.user_id s =? uid) subject_table))
    /\ StronglySorted
         (fun a b => (Subjects.total_study_time b <= Subjects.total_study_time a)%Q)
         stats.
Proof.
  eexists. split; [reflexivity|]. split.
  - apply sorted_desc_perm.
  - apply (sorted_desc_sorted_by Subjects.total_study_time).
Qed.

Lemma fold_max_spec (ts : list Z) :
  forall t : Z,
    In (fold_left Z.max ts t) (t :: ts)
    /\ forall t', In t' (t :: ts) -> t' <= fold_left Z.max ts t.
Proof.
  induction ts as [|u ts IH]; intros t; cbn [fold_left].
  - split; [now left|]. intros t' [<-|[]]. lia.
  - destruct (IH (Z.max t u)) as [H1 H2]. split.
    + destruct H1 as [E|H1]; [|right; now right].
      rewrite <- E. destruct (Z.max_spec t u) as [[_ ->]|[_ ->]];
        [right; now left | now left].
    + intros t' Ht'.
      assert (t' <= Z.max t u \/ In t' ts) as [Hle|Hin]
          by (destruct Ht' as [<-|[<-|Hin]]; [left; lia | left; lia | now right]).
      * specialize (H2 (Z.max t u) (or_introl eq_refl)). lia.
      * apply H2. now right.
Qed.

(** X14. The entry of a subject in the stats: [session_count] counts the
    sessions of that subject, [last_studied] is absent exactly when there is
    none and otherwise is the newest of their timestamps, and a subject
    without sessions has total time 0 and average focus 0. *)
Theorem subject_stats_entry (table : list StudySession.t) (subject : Subject.t) :
  let rows :=
    filter (fun s => Subject.id (StudySession.subject s) =? Subject.id subject) table in
  let st := Subjects.subject_stats table subject in
  Subjects.session_count st = len rows
  /\ match Subjects.last_studied st with
     | None =>
         rows = []
         /\ (Subjects.total_study_time st == 0)%Q
         /\ (Subjects.average_focus_level st == 0)%Q
     | Some newest =>
         (exists s, In s rows /\ StudySession.timestamp s = newest)
         /\ forall s, In s rows -> StudySession.timestamp s <= newest
     end.
Proof.
  intros rows st. subst st. unfold Subjects.subject_stats.
  cbn [Subjects.session_count Subjects.last_studied Subjects.total_study_time
       Subjects.average_focus_level].
  change (Subjects.study_sessions table subject) with rows.
  split; [reflexivity|]. unfold Subjects.last_timestamp.
  destruct rows as [|s0 rows']; cbn [map].
  - split; [reflexivity|]. split; vm_compute; reflexivity.
  - destruct (fold_max_spec (map StudySession.timestamp rows')
                (StudySession.timestamp s0)) as [H1 H2].
    split.
    + change (StudySession.timestamp s0 :: map StudySession.timestamp rows')
        with (map StudySession.timestamp (s0 :: rows')) in H1.
      apply in_map_iff in H1 as (s & E & Hs). exists s. auto.
    + intros s Hs. apply H2.
      change (StudySession.timestamp s0 :: map StudySession.timestamp rows')
        with (map StudySession.timestamp (s0 :: rows')).
      now apply in_map.
Qed.

Lemma subject_stats_average_divides_by_all_witness :
  Subjects.avg_focus Sample.focus_gap
  = (inject_Z (fst (present_focus_sum_count Sample.focus_gap))
     / inject_Z (len Sample.focus_gap))%Q.
Proof.
  assert (Sample.focus_gap <> []) as H by discriminate.
  exact (subject_stats_average_divides_by_all Sample.focus_gap H).
Defined.

(** ** The study data of [get_study_data_for_ai] *)

Lemma add_session_fold (group : list StudySession.t) :
  forall e : Ai.SubjectSessions,
    let e' := fold_left (fun v s => Ai.add_session s v) group e in
    (Ai.total_time e' == Ai.total_time e + sum_Q (map StudySession.time_spent group))%Q
    /\ Ai.sessions e' = Ai.sessions e + len group
    /\ Ai.focus_levels e' = Ai.focus_levels e ++ nonzero_focus_levels group
    /\ Ai.topics e' = Ai.topics e ++ nonempty_topics group.
Proof.
  induction group as [|s group IH]; intros e; cbn [fold_left map].
  - unfold len. cbn. rewrite !app_nil_r. repeat split; [ring | lia].
  - destruct (IH (Ai.add_session s e)) as (H1 & H2 & H3 & H4).
    cbn zeta. rewrite H1, H2, H3, H4, sum_Q_cons.
    unfold Ai.add_session, nonzero_focus_levels, nonempty_topics, len.
    cbn [Ai.total_time Ai.sessions Ai.focus_levels Ai.topics List.length flat_map].
    split; [ring|]. split; [lia|]. split.
    + destruct (StudySession.focus_level s) as [f|]; cbn [truthy_Z];
        [destruct (f =? 0); cbn [negb]|]; now rewrite <- ?app_assoc, ?app_nil_r.
    + destruct (StudySession.topic s) as [[|a t]|]; cbn [truthy_string];
        now rewrite <- ?app_assoc, ?app_nil_r.
Qed.

(** X16. The per-subject entry of the study data: a subject name without
    sessions has no entry; otherwise the entry counts the sessions with that
    name, adds up their times, and lists, in session order, their focus
    levels that are present and not 0 and their topics that are present and
    not empty. *)
Theorem subject_sessions_lookup (sessions : list StudySession.t) (subject_name : string) :
  let group :=
    filter (fun s => String.eqb (Subject.name (StudySession.subject s)) subject_name)
      sessions in
  match get String.eqb subject_name (Ai.subject_sessions sessions) with
  | None => group = []
  | Some e =>
      group <> []
      /\ Ai.sessions e = len group
      /\ (Ai.total_time e == sum_Q (map StudySession.time_spent group))%Q
      /\ Ai.focus_levels e = nonzero_focus_levels group
      /\ Ai.topics e = nonempty_topics group
  end.
Proof.
  intros group. unfold Ai.subject_sessions.
  rewrite (get_fold_upsert String.eqb String.eqb_eq
             (fun s => Subject.name (StudySession.subject s))
             (fun _ => Ai.mkSubjectSessions 0 0 [] [])
             Ai.add_session).
  fold group. cbn [get].
  destruct group as [|first rest] eqn:E; [reflexivity|].
  destruct (add_session_fold (first :: rest) (Ai.mkSubjectSessions 0 0 [] []))
    as (H1 & H2 & H3 & H4).
  cbn zeta in H1, H2, H3, H4. rewrite H1, H2, H3, H4.
  cbn [Ai.total_time Ai.sessions Ai.focus_levels Ai.topics app].
  split; [discriminate|]. split; [lia|]. split; [ring|]. split; reflexivity.
Qed.


Section UpsertGather.
Context {K V B : Type} (eqb : K -> K -> bool) (g : V -> list B).


End UpsertGather.




(** The study data is fetched exactly when the window is representable and
    the user exists; its subjects are grouped from the sessions of the
    window. *)
Lemma get_study_data_for_ai_Some (users : list User.t) (table : list StudySession.t)
  (notes : list AudioNote.t) (utcnow uid days : Z) (sd : Ai.StudyData) :
  Ai.get_study_data_for_ai users table notes utcnow uid days = Some sd ->
  window_representable utcnow days
  /\ (exists user, find (fun u => User.id u =? uid) users = Some user)
  /\ Ai.subjects sd
     = Ai.subject_sessions
         (Sessions.sessions_in_range table uid
            (utcnow - days * Datetime.US_PER_DAY) utcnow).
Proof.
  unfold Ai.get_study_data_for_ai, Datetime.timedelta_days, Datetime.datetime_sub,
    window_representable.
  destruct (- Datetime.MAX_DELTA_DAYS <=? days) eqn:E1;
    destruct (days <=? Datetime.MAX_DELTA_DAYS) eqn:E2;
    cbn [andb bind]; try discriminate.
  destruct (Datetime.DATETIME_MIN <=? utcnow - days * Datetime.US_PER_DAY) eqn:E3;
    destruct (utcnow - days * Datetime.US_PER_DAY <? Datetime.DATETIME_END) eqn:E4;
    cbn [andb bind]; try discriminate.
  destruct (find (fun u => User.id u =? uid) users) as [user|] eqn:Eu;
    cbn [bind]; [|discriminate].
  intros H. inversion H; subst sd. cbn [Ai.subjects].
  apply Z.leb_le in E1, E2, E3. apply Z.ltb_lt in E4.
  split; [auto|]. split; [now exists user | reflexivity].
Qed.



(** X18. [get_weekly_insights] answers 200 exactly when the 7-day window is
    representable and the user row exists, and 500 otherwise. *)
Theorem get_weekly_insights_status (users : list User.t)
  (table : list StudySession.t) (notes : list AudioNote.t) (uid utcnow : Z) :
  let served :=
    window_representable utcnow 7
    /\ exists user, find (fun u => User.id u =? uid) users = Some user in
  (served
   /\ exists ins, Ai.get_weekly_insights users table notes uid utcnow = Ok200 ins)
  \/ (~ served
      /\ Ai.get_weekly_insights users table notes uid utcnow = InternalError500).
Proof.
  intros served. unfold Ai.get_weekly_insights.
  destruct (Ai.get_study_data_for_ai users table notes utcnow uid 7) as [sd|] eqn:E;
    cbn [bind].
  - left. apply get_study_data_for_ai_Some in E as (Hw & Hu & _).
    split; [split; assumption|].
    destruct (weekly_insights_Some sd) as (most & least & -> & _).
    eexists. reflexivity.
  - right. split; [|reflexivity]. intros [[[H1 H2] [H3 H4]] [user Hu]].
    unfold Ai.get_study_data_for_ai, Datetime.timedelta_days, Datetime.datetime_sub in E.
    replace (- Datetime.MAX_DELTA_DAYS <=? 7) with true in E
      by (symmetry; apply Z.leb_le; exact H1).
    replace (7 <=? Datetime.MAX_DELTA_DAYS) with true in E
      by (symmetry; apply Z.leb_le; exact H2).
    cbn [andb bind] in E.
    replace (Datetime.DATETIME_MIN <=? utcnow - 7 * Datetime.US_PER_DAY) with true in E
      by (symmetry; apply Z.leb_le; exact H3).
    replace (utcnow - 7 * Datetime.US_PER_DAY <? Datetime.DATETIME_END) with true in E
      by (symmetry; apply Z.ltb_lt; exact H4).
    cbn [andb bind] in E. rewrite Hu in E. cbn [bind] in E. discriminate.
Qed.

(** ** The groups of [get_streak] *)

(** X12. [sessions_by_date] is a group-by: under each date it holds the
    sessions of that date, in the order of the query, and a date without
    sessions has no entry. *)
Theorem sessions_by_date_lookup (sessions : list StudySession.t) (day : Z) :
  get Z.eqb day (Sessions.sessions_by_date sessions)
  = match filter (fun s => Datetime.date (StudySession.timestamp s) =? day) sessions with
    | [] => None
    | group => Some group
    end.
Proof.
  unfold Sessions.sessions_by_date.
  rewrite (get_fold_upsert Z.eqb Z.eqb_eq
             (fun s => Datetime.date (StudySession.timestamp s))
             (fun _ => @nil StudySession.t)
             (fun s l => l ++ [s])).
  cbn [get].
  destruct (filter _ sessions) as [|first rest]; [reflexivity|]. f_equal.
  assert (forall (g acc : list StudySession.t),
             fold_left (fun v s => v ++ [s]) g acc = acc ++ g) as H.
  { induction g as [|s g IH]; intros acc; cbn [fold_left].
    - now rewrite app_nil_r.
    - rewrite IH, <- app_assoc. reflexivity. }
  apply (H (first :: rest) []).
Qed.

(** ** Wider windows *)

Lemma filter_length_le {A : Type} (p q : A -> bool) (l : list A) :
  (forall a, p a = true -> q a = true) ->
  (List.length (filter p l) <= List.length (filter q l))%nat.
Proof.
  intros H. induction l as [|a l IH]; cbn [filter]; [lia|].
  destruct (p a) eqn:E.
  - rewrite (H a E). cbn [List.length]. lia.
  - destruct (q a); cbn [List.length]; lia.
Qed.

(** X6. Widening the window never loses a session: for [days1 <= days2],
    both representable, every session counted for [days1] is counted for
    [days2], so [total_sessions] does not decrease. *)
Theorem analytics_window_monotone (table : list StudySession.t)
  (uid utcnow days1 days2 : Z) (a1 a2 : Sessions.Analytics) :
  days1 <= days2 ->
  Sessions.get_analytics table uid utcnow (Some days1) = Ok200 a1 ->
  Sessions.get_analytics table uid utcnow (Some days2) = Ok200 a2 ->
  Sessions.total_sessions (Sessions.summary a1)
  <= Sessions.total_sessions (Sessions.summary a2).
Proof.
  intros Hle H1 H2.
  apply get_analytics_Ok in H1 as [_ ->]. apply get_analytics_Ok in H2 as [_ ->].
  cbn [Sessions.args_get_days Sessions.analytics Sessions.summary Sessions.total_sessions].
  unfold len, Sessions.sessions_in_range. apply inj_le.
  apply filter_length_le. intros s.
  rewrite !andb_true_iff, !Z.leb_le, !Z.eqb_eq.
  unfold Datetime.US_PER_DAY. intros [[Hu Hs] He]. repeat split; auto; lia.
Qed.

Lemma analytics_window_monotone_witness :
  Sessions.total_sessions
    (Sessions.summary
       (Sessions.analytics (Sample.noon - 1 * Datetime.US_PER_DAY) Sample.noon 1
          (Sessions.sessions_in_range Sample.two_runs 1
             (Sample.noon - 1 * Datetime.US_PER_DAY) Sample.noon)))
  <= Sessions.total_sessions (Sessions.summary Sample.week_analytics).
Proof.
  assert (1 <= 7) as Hle by lia.
  assert (Sessions.get_analytics Sample.two_runs 1 Sample.noon (Some 1)
          = Ok200 (Sessions.analytics (Sample.noon - 1 * Datetime.US_PER_DAY)
                     Sample.noon 1
                     (Sessions.sessions_in_range Sample.two_runs 1
                        (Sample.noon - 1 * Datetime.US_PER_DAY) Sample.noon)))
    as H1 by (vm_compute; reflexivity).
  assert (Sessions.get_analytics Sample.two_runs 1 Sample.noon (Some 7)
          = Ok200 Sample.week_analytics) as H2 by (vm_compute; reflexivity).
  exact (analytics_window_monotone Sample.two_runs 1 Sample.noon 1 7 _ _ Hle H1 H2).
Defined.

(** ** The handlers of single sessions *)

Import SessionRoutes.

Lemma find_session_Some (table : list SessionRow.t) (sid uid : Z) (row : SessionRow.t) :
  find_session table sid uid = Some row ->
  In row table
  /\ StudySession.id (SessionRow.session row) = sid
  /\ Subject.user_id (StudySession.subject (SessionRow.session row)) = uid.
Proof.
  unfold find_session. intros H. apply find_some in H as [H1 H2].
  unfold owned in H2. apply andb_true_iff in H2 as [H2 H3].
  apply Z.eqb_eq in H2, H3. auto.
Qed.

(** The field updates of [update_session] keep the id, the subject and the
    timestamp of the row, and its validity. *)
Lemma update_fields (d : SessionBody.t) (old row : SessionRow.t) :
  and_then (and_then (and_then (set_time_spent d old) (set_topic d))
              (set_focus_level d)) (set_notes d) = Continue row ->
  StudySession.id (SessionRow.session row) = StudySession.id (SessionRow.session old)
  /\ StudySession.subject (SessionRow.session row)
     = StudySession.subject (SessionRow.session old)
  /\ StudySession.timestamp (SessionRow.session row)
     = StudySession.timestamp (SessionRow.session old)
  /\ (valid_row old -> valid_row row).
Proof.
  unfold set_time_spent, set_topic, set_focus_level, set_notes, and_then, valid_row,
    focus_out_of_range.
  destruct d as [sid ts tp fl nt other]; cbn [SessionBody.time_spent SessionBody.topic
    SessionBody.focus_level SessionBody.notes].
  destruct ts as [| |t]; [| discriminate |destruct (Qle_bool t 0) eqn:Et; [discriminate|]];
    destruct tp as [| |tp]; destruct fl as [| |f]; cbn [has_key data_get];
    try destruct ((f <? 1) || (10 <? f)) eqn:Ef; try discriminate;
    destruct nt as [| |nt]; cbn [has_key data_get];
    intros H; inversion H; subst row; cbn; repeat split; try tauto;
    try (intros [H1 H2]); try (split; [|exact I]); try assumption;
    try (apply Qnot_le_lt; intros Hle; apply Qle_bool_iff in Hle; congruence);
    try (apply orb_false_iff in Ef as [E1 E2]; apply Z.ltb_ge in E1, E2; lia).
Qed.

(** X19. A request that is answered with an error changes nothing: after an
    [{'error': ...}] answer of [create_session], [update_session] or
    [delete_session] the table is the one before the request. *)
Theorem failed_writes_change_nothing (subjects : list Subject.t)
  (table : list SessionRow.t) (uid new_id utcnow sid : Z)
  (data : option SessionBody.t) :
  match create_session subjects table uid new_id utcnow data with
  | (Error _ _, table') => table' = table
  | _ => True
  end
  /\ match update_session table uid sid data with
     | (Error _ _, table') => table' = table
     | _ => True
     end
  /\ match delete_session table uid sid with
     | (Error _ _, table') => table' = table
     | _ => True
     end.
Proof.
  split; [|split].
  - unfold create_session.
    destruct data as [d|]; [|reflexivity].
    destruct (no_data (Some d)); [reflexivity|].
    destruct (data_get (SessionBody.subject_id d)) as [subject_id|]; [|reflexivity].
    destruct (subject_id =? 0); [reflexivity|].
    destruct (data_get (SessionBody.time_spent d)) as [t|]; [|reflexivity].
    destruct (Qeq_bool t 0 || Qle_bool t 0); [reflexivity|].
    destruct (find _ subjects) as [subject|]; [|reflexivity].
    destruct (focus_out_of_range _); [reflexivity | exact I].
  - unfold update_session.
    destruct (find_session table sid uid) as [row|]; [|reflexivity].
    destruct data as [d|]; [|reflexivity].
    destruct (no_data (Some d)); [reflexivity|].
    destruct (and_then _ _) as [row'|[]|]; auto.
  - unfold delete_session. destruct (find_session table sid uid); auto.
Qed.

Lemma replace_first_Forall (P : SessionRow.t -> Prop) (p : SessionRow.t -> bool)
  (new : SessionRow.t) (table : list SessionRow.t) :
  P new -> Forall P table -> Forall P (replace_first p new table).
Proof.
  intros Hn. induction 1 as [|row table Hr Ht IH]; cbn [replace_first]; [constructor|].
  destruct (p row); constructor; auto.
Qed.

Lemma remove_first_Forall (P : SessionRow.t -> Prop) (p : SessionRow.t -> bool)
  (table : list SessionRow.t) :
  Forall P table -> Forall P (remove_first p table).
Proof.
  induction 1 as [|row table Hr Ht IH]; cbn [remove_first]; [constructor|].
  destruct (p row); [exact Ht | now constructor].
Qed.

(** X20. The writers keep every row valid: if each row of the table has a
    positive time and a focus level that is absent or within 1..10, so has
    each row after [create_session], [update_session] and
    [delete_session], whatever the request. *)
Theorem writes_keep_rows_valid (subjects : list Subject.t)
  (table : list SessionRow.t) (uid new_id utcnow sid : Z)
  (data : option SessionBody.t) :
  Forall valid_row table ->
  Forall valid_row (snd (create_session subjects table uid new_id utcnow data))
  /\ Forall valid_row (snd (update_session table uid sid data))
  /\ Forall valid_row (snd (delete_session table uid sid)).
Proof.
  intros Hv. split; [|split].
  - unfold create_session.
    destruct data as [d|]; [|exact Hv].
    destruct (no_data (Some d)); [exact Hv|].
    destruct (data_get (SessionBody.subject_id d)) as [subject_id|]; [|exact Hv].
    destruct (subject_id =? 0); [exact Hv|].
    destruct (data_get (SessionBody.time_spent d)) as [t|]; [|exact Hv].
    destruct (Qeq_bool t 0 || Qle_bool t 0) eqn:Et; [exact Hv|].
    destruct (find _ subjects) as [subject|]; [|exact Hv].
    destruct (focus_out_of_range (data_get (SessionBody.focus_level d))) eqn:Ef;
      [exact Hv|].
    cbn [snd]. apply Forall_app. split; [exact Hv|]. constructor; [|constructor].
    unfold valid_row. cbn. apply orb_false_iff in Et as [_ Et]. split.
    + apply Qnot_le_lt. intros Hle. apply Qle_bool_iff in Hle. congruence.
    + unfold focus_out_of_range in Ef.
      destruct (data_get (SessionBody.focus_level d)) as [f|]; [|exact I].
      apply orb_false_iff in Ef as [E1 E2]. apply Z.ltb_ge in E1, E2. lia.
  - unfold update_session.
    destruct (find_session table sid uid) as [old|] eqn:Eo; [|exact Hv].
    destruct data as [d|]; [|exact Hv].
    destruct (no_data (Some d)); [exact Hv|].
    destruct (and_then _ _) as [row| |] eqn:Eu; try exact Hv.
    cbn [snd]. apply replace_first_Forall; [|exact Hv].
    apply update_fields in Eu as (_ & _ & _ & Hvalid). apply Hvalid.
    apply find_session_Some in Eo as (Hin & _).
    rewrite Forall_forall in Hv. now apply Hv.
  - unfold delete_session.
    destruct (find_session table sid uid); [|exact Hv].
    cbn [snd]. now apply remove_first_Forall.
Qed.

Lemma sample_rows_valid : Forall valid_row (Sample.other_row :: Sample.rows).
Proof.
  repeat constructor; unfold valid_row; cbn; try reflexivity; try exact I; lia.
Qed.

Lemma writes_keep_rows_valid_witness :
  Forall valid_row
    (snd (create_session [Sample.maths; Sample.physics]
            (Sample.other_row :: Sample.rows) 1 10 Sample.noon
            (Some Sample.new_session)))
  /\ Forall valid_row
       (snd (update_session (Sample.other_row :: Sample.rows) 1 4
               (Some Sample.correction))).
Proof.
  destruct (writes_keep_rows_valid [Sample.maths; Sample.physics]
              (Sample.other_row :: Sample.rows) 1 10 Sample.noon 4
              (Some Sample.new_session) sample_rows_valid) as (H1 & _ & _).
  destruct (writes_keep_rows_valid [Sample.maths; Sample.physics]
              (Sample.other_row :: Sample.rows) 1 10 Sample.noon 4
              (Some Sample.correction) sample_rows_valid) as (_ & H2 & _).
  split; assumption.
Defined.

(** ** One user's writes and another user's reads *)

Lemma replace_first_other (sid uid uid' : Z) (new : SessionRow.t)
  (table : list SessionRow.t) :
  uid' <> uid ->
  Subject.user_id (StudySession.subject (SessionRow.session new)) = uid ->
  filter (fun s => Subject.user_id (StudySession.subject s) =? uid')
    (sessions_of (replace_first (owned sid uid) new table))
  = filter (fun s => Subject.user_id (StudySession.subject s) =? uid')
      (sessions_of table).
Proof.
  intros Hne Hnew. unfold sessions_of.
  induction table as [|row table IH]; cbn [replace_first map filter]; [reflexivity|].
  destruct (owned sid uid row) eqn:E; cbn [map filter].
  - unfold owned in E. apply andb_true_iff in E as [_ E]. apply Z.eqb_eq in E.
    rewrite Hnew, E.
    replace (uid =? uid') with false by (symmetry; apply Z.eqb_neq; congruence).
    reflexivity.
  - now rewrite IH.
Qed.

Lemma remove_first_other (sid uid uid' : Z) (table : list SessionRow.t) :
  uid' <> uid ->
  filter (fun s => Subject.user_id (StudySession.subject s) =? uid')
    (sessions_of (remove_first (owned sid uid) table))
  = filter (fun s => Subject.user_id (StudySession.subject s) =? uid')
      (sessions_of table).
Proof.
  intros Hne. unfold sessions_of.
  induction table as [|row table IH]; cbn [remove_first map filter]; [reflexivity|].
  destruct (owned sid uid row) eqn:E; cbn [map filter].
  - unfold owned in E. apply andb_true_iff in E as [_ E]. apply Z.eqb_eq in E.
    rewrite E.
    replace (uid =? uid') with false by (symmetry; apply Z.eqb_neq; congruence).
    reflexivity.
  - now rewrite IH.
Qed.

(** The rows of another user are the same after any of the three writers. *)
Lemma writes_leave_other_rows (subjects : list Subject.t)
  (table : list SessionRow.t) (uid uid' new_id utcnow sid : Z)
  (data : option SessionBody.t) :
  uid' <> uid ->
  let mine (t : list SessionRow.t) :=
    filter (fun s => Subject.user_id (StudySession.subject s) =? uid') (sessions_of t) in
  mine (snd (create_session subjects table uid new_id utcnow data)) = mine table
  /\ mine (snd (update_session table uid sid data)) = mine table
  /\ mine (snd (delete_session table uid sid)) = mine table.
Proof.
  intros Hne mine. unfold mine. split; [|split].
  - unfold create_session.
    destruct data as [d|]; [|reflexivity].
    destruct (no_data (Some d)); [reflexivity|].
    destruct (data_get (SessionBody.subject_id d)) as [subject_id|]; [|reflexivity].
    destruct (subject_id =? 0); [reflexivity|].
    destruct (data_get (SessionBody.time_spent d)) as [t|]; [|reflexivity].
    destruct (Qeq_bool t 0 || Qle_bool t 0); [reflexivity|].
    destruct (find _ subjects) as [subject|] eqn:Es; [|reflexivity].
    destruct (focus_out_of_range _); [reflexivity|].
    cbn [snd]. unfold sessions_of. rewrite map_app, filter_app. cbn [map filter].
    apply find_some in Es as [_ Es]. apply andb_true_iff in Es as [_ Es].
    apply Z.eqb_eq in Es. cbn [SessionRow.session StudySession.subject]. rewrite Es.
    replace (uid =? uid') with false by (symmetry; apply Z.eqb_neq; congruence).
    now rewrite app_nil_r.
  - unfold update_session.
    destruct (find_session table sid uid) as [old|] eqn:Eo; [|reflexivity].
    destruct data as [d|]; [|reflexivity].
    destruct (no_data (Some d)); [reflexivity|].
    destruct (and_then _ _) as [row| |] eqn:Eu; try reflexivity.
    cbn [snd]. apply replace_first_other; [exact Hne|].
    apply update_fields in Eu as (_ & -> & _).
    now apply find_session_Some in Eo as (_ & _ & ?).
  - unfold delete_session.
    destruct (find_session table sid uid); [|reflexivity].
    cbn [snd]. now apply remove_first_other.
Qed.

(** The reading handlers look at the rows of their user only. *)
Lemma reads_depend_on_own_rows (t1 t2 : list StudySession.t) (uid utcnow : Z)
  (arg : option Z) :
  filter (fun s => Subject.user_id (StudySession.subject s) =? uid) t1
  = filter (fun s => Subject.user_id (StudySession.subject s) =? uid) t2 ->
  Sessions.get_analytics t1 uid utcnow arg = Sessions.get_analytics t2 uid utcnow arg
  /\ Sessions.get_streak t1 uid utcnow = Sessions.get_streak t2 uid utcnow.
Proof.
  intros H. split.
  - unfold Sessions.get_analytics.
    assert (forall t s e,
               Sessions.sessions_in_range t uid s e
               = filter (fun x => (s <=? StudySession.timestamp x)
                                  && (StudySession.timestamp x <=? e))
                   (filter (fun x => Subject.user_id (StudySession.subject x) =? uid) t))
      as Hr.
    { intros t s e. rewrite filter_filter. unfold Sessions.sessions_in_range.
      apply filter_ext. intros x. now rewrite andb_assoc. }
    destruct (Datetime.timedelta_days _) as [delta|]; cbn [bind]; [|reflexivity].
    destruct (Datetime.datetime_sub utcnow delta) as [start|]; cbn [bind]; [|reflexivity].
    now rewrite !Hr, H.
  - unfold Sessions.get_streak, Sessions.sessions_desc. now rewrite H.
Qed.

(** X21. A user's writes never show in another user's reads: after
    [create_session], [update_session] or [delete_session] by one user, the
    analytics and the streak of any other user are what they were. *)
Theorem writes_invisible_to_other_users (subjects : list Subject.t)
  (table : list SessionRow.t) (uid uid' new_id utcnow sid now : Z)
  (data : option SessionBody.t) (arg : option Z) :
  uid' <> uid ->
  let reads (t : list SessionRow.t) :=
    (Sessions.get_analytics (sessions_of t) uid' now arg,
     Sessions.get_streak (sessions_of t) uid' now) in
  reads (snd (create_session subjects table uid new_id utcnow data)) = reads table
  /\ reads (snd (update_session table uid sid data)) = reads table
  /\ reads (snd (delete_session table uid sid)) = reads table.
Proof.
  intros Hne reads.
  destruct (writes_leave_other_rows subjects table uid uid' new_id utcnow sid data Hne)
    as (H1 & H2 & H3).
  unfold reads.
  split; [|split];
    [ destruct (reads_depend_on_own_rows _ _ uid' now arg H1) as [-> ->]
    | destruct (reads_depend_on_own_rows _ _ uid' now arg H2) as [-> ->]
    | destruct (reads_depend_on_own_rows _ _ uid' now arg H3) as [-> ->] ];
    reflexivity.
Qed.

Lemma writes_invisible_to_other_users_witness :
  Sessions.get_streak
    (sessions_of (snd (delete_session (Sample.other_row :: Sample.rows) 1 2))) 2
    Sample.noon
  = Sessions.get_streak (sessions_of (Sample.other_row :: Sample.rows)) 2 Sample.noon.
Proof.
  assert (2 <> 1) as Hne by discriminate.
  destruct (writes_invisible_to_other_users [Sample.maths; Sample.physics]
              (Sample.other_row :: Sample.rows) 1 2 10 Sample.noon 2 Sample.noon
              None None Hne) as (_ & _ & H).
  now inversion H.
Defined.

(** ** Writing, then reading *)

Lemma find_app_fresh (p : SessionRow.t -> bool) (table : list SessionRow.t)
  (row : SessionRow.t) :
  (forall r, In r table -> p r = false) -> p row = true ->
  find p (table ++ [row]) = Some row.
Proof.
  intros Hf Hp. induction table as [|r table IH]; cbn [app find].
  - now rewrite Hp.
  - rewrite (Hf r (or_introl eq_refl)). apply IH. intros r' Hr'. apply Hf. now right.
Qed.

(** X22. A created session can be read back: when [create_session] answers
    201 and the new primary key is fresh, the table is the old one with the
    new row at its end, the row belongs to the caller, carries the clock's
    timestamp and is valid, and [get_session] on the new key returns it. *)
Theorem create_then_get (subjects : list Subject.t) (table table' : list SessionRow.t)
  (uid new_id utcnow status : Z) (data : option SessionBody.t) (message : string)
  (row : SessionRow.t) :
  (forall r, In r table -> StudySession.id (SessionRow.session r) <> new_id) ->
  create_session subjects table uid new_id utcnow data
  = (WithSession status message row, table') ->
  status = 201
  /\ table' = table ++ [row]
  /\ StudySession.id (SessionRow.session row) = new_id
  /\ StudySession.timestamp (SessionRow.session row) = utcnow
  /\ In (StudySession.subject (SessionRow.session row)) subjects
  /\ Subject.user_id (StudySession.subject (SessionRow.session row)) = uid
  /\ valid_row row
  /\ get_session table' uid new_id = Session 200 row.
Proof.
  intros Hfresh. unfold create_session.
  destruct data as [d|]; [|discriminate].
  destruct (no_data (Some d)); [discriminate|].
  destruct (data_get (SessionBody.subject_id d)) as [subject_id|]; [|discriminate].
  destruct (subject_id =? 0); [discriminate|].
  destruct (data_get (SessionBody.time_spent d)) as [t|]; [|discriminate].
  destruct (Qeq_bool t 0 || Qle_bool t 0) eqn:Et; [discriminate|].
  destruct (find _ subjects) as [subject|] eqn:Es; [|discriminate].
  destruct (focus_out_of_range (data_get (SessionBody.focus_level d))) eqn:Ef;
    [discriminate|].
  intros H. inversion H; subst. clear H.
  apply find_some in Es as [Hin Es]. apply andb_true_iff in Es as [_ Es].
  apply Z.eqb_eq in Es.
  cbn [SessionRow.session StudySession.id StudySession.timestamp StudySession.subject].
  repeat split; auto.
  - cbn. apply orb_false_iff in Et as [_ Et].
    apply Qnot_le_lt. intros Hle. apply Qle_bool_iff in Hle. congruence.
  - cbn. unfold focus_out_of_range in Ef.
    destruct (data_get (SessionBody.focus_level d)) as [f|]; [|exact I].
    apply orb_false_iff in Ef as [E1 E2]. apply Z.ltb_ge in E1, E2. lia.
  - unfold get_session, find_session. rewrite find_app_fresh; [reflexivity| |].
    + intros r Hr. unfold owned.
      replace (StudySession.id (SessionRow.session r) =? new_id) with false
        by (symmetry; apply Z.eqb_neq; now apply Hfresh).
      reflexivity.
    + unfold owned. cbn. now rewrite Z.eqb_refl, Es, Z.eqb_refl.
Qed.

Lemma create_then_get_witness :
  exists row,
    get_session
      (snd (create_session [Sample.maths; Sample.physics] Sample.rows 1 10
              Sample.noon (Some Sample.new_session)))
      1 10
    = Session 200 row
    /\ valid_row row.
Proof.
  assert (forall r, In r Sample.rows -> StudySession.id (SessionRow.session r) <> 10)
    as Hfresh by (intros r Hr; cbn in Hr; intuition (subst; discriminate)).
  assert (exists row table',
             create_session [Sample.maths; Sample.physics] Sample.rows 1 10
               Sample.noon (Some Sample.new_session)
             = (WithSession 201 "Study session created successfully" row, table'))
    as (row & table' & E) by (eexists _, _; vm_compute; reflexivity).
  exists row. rewrite E. cbn [snd].
  destruct (create_then_get _ _ _ _ _ _ _ _ _ _ Hfresh E) as (_ & _ & _ & _ & _ & _ & Hv & Hg).
  split; [exact Hg | exact Hv].
Defined.

Lemma find_replace_first (p : SessionRow.t -> bool) (new old : SessionRow.t)
  (table : list SessionRow.t) :
  find p table = Some old -> p new = true ->
  find p (replace_first p new table) = Some new.
Proof.
  intros Hf Hp. induction table as [|r table IH]; cbn [find replace_first] in *;
    [discriminate|].
  destruct (p r) eqn:E; cbn [find].
  - now rewrite Hp.
  - rewrite E. now apply IH.
Qed.

Lemma replace_first_ids (p : SessionRow.t -> bool) (new old : SessionRow.t)
  (table : list SessionRow.t) :
  find p table = Some old ->
  StudySession.id (SessionRow.session new) = StudySession.id (SessionRow.session old) ->
  map (fun r => StudySession.id (SessionRow.session r)) (replace_first p new table)
  = map (fun r => StudySession.id (SessionRow.session r)) table.
Proof.
  intros Hf Hid. induction table as [|r table IH]; cbn [find replace_first map] in *;
    [reflexivity|].
  destruct (p r) eqn:E; cbn [map].
  - inversion Hf; subst. now rewrite Hid.
  - f_equal. now apply IH.
Qed.

(** X23. An update can be read back and keeps the row's identity: when
    [update_session] answers with a session, the status is 200,
    [get_session] returns the updated row, the row has the id, the subject
    and the timestamp it had, and the table has the same primary keys in the
    same order. *)
Theorem update_then_get (table table' : list SessionRow.t) (uid sid status : Z)
  (data : option SessionBody.t) (message : string) (row : SessionRow.t) :
  update_session table uid sid data = (WithSession status message row, table') ->
  status = 200
  /\ get_session table' uid sid = Session 200 row
  /\ (exists old,
         get_session table uid sid = Session 200 old
         /\ StudySession.id (SessionRow.session row)
            = StudySession.id (SessionRow.session old)
         /\ StudySession.subject (SessionRow.session row)
            = StudySession.subject (SessionRow.session old)
         /\ StudySession.timestamp (SessionRow.session row)
            = StudySession.timestamp (SessionRow.session old))
  /\ map (fun r => StudySession.id (SessionRow.session r)) table'
     = map (fun r => StudySession.id (SessionRow.session r)) table.
Proof.
  unfold update_session, get_session.
  destruct (find_session table sid uid) as [old|] eqn:Eo; [|discriminate].
  destruct data as [d|]; [|discriminate].
  destruct (no_data (Some d)); [discriminate|].
  destruct (and_then _ _) as [row'|answer|] eqn:Eu; [| |discriminate].
  - intros H. inversion H; subst. clear H.
    apply update_fields in Eu as (Hid & Hsub & Hts & _).
    pose proof (find_session_Some _ _ _ _ Eo) as (_ & Hsid & Huid).
    split; [reflexivity|]. split; [|split].
    + unfold find_session. erewrite find_replace_first; [reflexivity | exact Eo|].
      unfold owned. rewrite Hid, Hsub, Hsid, Huid, !Z.eqb_refl. reflexivity.
    + exists old. auto.
    + now apply (replace_first_ids _ _ old).
  - (* an early return of a field update is an error answer *)
    intros H. exfalso. inversion H; subst. clear H.
    unfold and_then, set_time_spent, set_topic, set_focus_level, set_notes in Eu.
    destruct (SessionBody.time_spent d) as [| |t]; try discriminate;
      try destruct (Qle_bool t 0); try discriminate;
      destruct (has_key (SessionBody.topic d));
      destruct (has_key (SessionBody.focus_level d));
      try destruct (focus_out_of_range _); try discriminate;
      destruct (has_key (SessionBody.notes d)); discriminate.
Qed.

Lemma update_then_get_witness :
  exists row,
    get_session (snd (update_session Sample.rows 1 4 (Some Sample.correction))) 1 4
    = Session 200 row
    /\ StudySession.focus_level (SessionRow.session row) = None.
Proof.
  assert (exists row table',
             update_session Sample.rows 1 4 (Some Sample.correction)
             = (WithSession 200 "Session updated successfully" row, table')
             /\ StudySession.focus_level (SessionRow.session row) = None)
    as (row & table' & E & Hf) by (eexists _, _; vm_compute; split; reflexivity).
  exists row. rewrite E. cbn [snd].
  destruct (update_then_get _ _ _ _ _ _ _ _ E) as (_ & Hg & _).
  split; [exact Hg | exact Hf].
Defined.

Lemma find_all_false {A : Type} (p : A -> bool) (l : list A) :
  (forall a, In a l -> p a = false) -> find p l = None.
Proof.
  induction l as [|a l IH]; intros H; cbn [find]; [reflexivity|].
  rewrite (H a (or_introl eq_refl)). apply IH. intros b Hb. apply H. now right.
Qed.

Lemma remove_first_unique (sid uid : Z) (old : SessionRow.t) (table : list SessionRow.t) :
  unique_ids table ->
  find (owned sid uid) table = Some old ->
  (forall r, In r (remove_first (owned sid uid) table) <->
             In r table /\ StudySession.id (SessionRow.session r) <> sid)
  /\ S (List.length (remove_first (owned sid uid) table)) = List.length table.
Proof.
  unfold unique_ids.
  induction table as [|r0 table IH]; intros Hnd Hf; cbn [find remove_first map] in *;
    [discriminate|].
  inversion Hnd as [|? ? Hnotin Hnd']; subst.
  destruct (owned sid uid r0) eqn:E.
  - unfold owned in E. apply andb_true_iff in E as [E _]. apply Z.eqb_eq in E.
    split; [|reflexivity]. intros r. split.
    + intros Hr. split; [now right|]. intros Hid. apply Hnotin. rewrite E, <- Hid.
      now apply (in_map (fun r => StudySession.id (SessionRow.session r))).
    + intros [[<-|Hr] Hid]; [contradiction | exact Hr].
  - destruct (IH Hnd' Hf) as [IH1 IH2]. split; [|cbn [List.length]; now rewrite IH2].
    assert (StudySession.id (SessionRow.session r0) <> sid) as Hr0.
    { intros Hid. apply Hnotin. apply find_some in Hf as [Hin Ho].
      unfold owned in Ho. apply andb_true_iff in Ho as [Ho _]. apply Z.eqb_eq in Ho.
      rewrite Hid, <- Ho.
      now apply (in_map (fun r => StudySession.id (SessionRow.session r))). }
    intros r. cbn [In]. rewrite IH1. split.
    + intros [<-|[Hr Hid]]; auto.
    + intros [[<-|Hr] Hid]; auto.
Qed.

(** X24. A deleted session is gone and nothing else is: when the primary
    keys are distinct and [delete_session] answers with a message, the
    status is 200, the table holds exactly the rows with another key, one
    fewer than before, and [get_session] on the key answers 404. *)
Theorem delete_then_get (table table' : list SessionRow.t) (uid sid status : Z)
  (message : string) :
  unique_ids table ->
  delete_session table uid sid = (Message status message, table') ->
  status = 200
  /\ (forall r, In r table' <->
                In r table /\ StudySession.id (SessionRow.session r) <> sid)
  /\ S (List.length table') = List.length table
  /\ get_session table' uid sid = Error 404 "Session not found".
Proof.
  intros Hu. unfold delete_session.
  destruct (find_session table sid uid) as [old|] eqn:Eo; [|discriminate].
  intros H. inversion H; subst. clear H.
  destruct (remove_first_unique sid uid old table Hu Eo) as [H1 H2].
  split; [reflexivity|]. split; [exact H1|]. split; [exact H2|].
  unfold get_session, find_session. rewrite find_all_false; [reflexivity|].
  intros r Hr. apply H1 in Hr as [_ Hid]. unfold owned.
  replace (StudySession.id (SessionRow.session r) =? sid) with false
    by (symmetry; now apply Z.eqb_neq).
  reflexivity.
Qed.

Lemma delete_then_get_witness :
  get_session (snd (delete_session Sample.rows 1 4)) 1 4
  = Error 404 "Session not found".
Proof.
  assert (unique_ids Sample.rows) as Hu
      by (unfold unique_ids; cbn; repeat constructor; cbn; intuition discriminate).
  assert (exists table',
             delete_session Sample.rows 1 4
             = (Message 200 "Session deleted successfully", table'))
    as (table' & E) by (eexists; vm_compute; reflexivity).
  rewrite E. cbn [snd].
  exact (proj2 (proj2 (proj2 (delete_then_get _ _ _ _ _ _ Hu E)))).
Defined.

(** X25. A created session is counted: after a 201, the caller's analytics
    over any representable window that contains the creation instant count
    one session more than over the table before. *)
Theorem created_session_is_counted (subjects : list Subject.t)
  (table table' : list SessionRow.t) (uid new_id utcnow status now days : Z)
  (data : option SessionBody.t) (message : string) (row : SessionRow.t)
  (a : Sessions.Analytics) :
  create_session subjects table uid new_id utcnow data
  = (WithSession status message row, table') ->
  Sessions.get_analytics (sessions_of table) uid now (Some days) = Ok200 a ->
  now - days * Datetime.US_PER_DAY <= utcnow <= now ->
  exists a',
    Sessions.get_analytics (sessions_of table') uid now (Some days) = Ok200 a'
    /\ Sessions.total_sessions (Sessions.summary a')
       = Sessions.total_sessions (Sessions.summary a) + 1.
Proof.
  intros Hc Ha Hin.
  assert (table' = table ++ [row]
          /\ StudySession.timestamp (SessionRow.session row) = utcnow
          /\ Subject.user_id (StudySession.subject (SessionRow.session row)) = uid)
    as (-> & Hts & Hu).
  { revert Hc. unfold create_session.
    destruct data as [d|]; [|discriminate].
    destruct (no_data (Some d)); [discriminate|].
    destruct (data_get (SessionBody.subject_id d)) as [subject_id|]; [|discriminate].
    destruct (subject_id =? 0); [discriminate|].
    destruct (data_get (SessionBody.time_spent d)) as [t|]; [|discriminate].
    destruct (Qeq_bool t 0 || Qle_bool t 0); [discriminate|].
    destruct (find _ subjects) as [subject|] eqn:Es; [|discriminate].
    destruct (focus_out_of_range _); [discriminate|].
    intros H. inversion H; subst. cbn.
    apply find_some in Es as [_ Es]. apply andb_true_iff in Es as [_ Es].
    apply Z.eqb_eq in Es. auto. }
  apply get_analytics_Ok in Ha as [Hw ->].
  rewrite (get_analytics_representable _ uid now (Some days) Hw).
  eexists. split; [reflexivity|].
  cbn [Sessions.args_get_days Sessions.analytics Sessions.summary Sessions.total_sessions].
  unfold len, sessions_of, Sessions.sessions_in_range.
  rewrite map_app, filter_app, length_app. cbn [map filter].
  rewrite Hu, Hts, Z.eqb_refl.
  replace (now - days * Datetime.US_PER_DAY <=? utcnow) with true
    by (symmetry; apply Z.leb_le; lia).
  replace (utcnow <=? now) with true by (symmetry; apply Z.leb_le; lia).
  cbn [andb List.length]. lia.
Qed.

Lemma created_session_is_counted_witness :
  exists a',
    Sessions.get_analytics
      (sessions_of
         (snd (create_session [Sample.maths; Sample.physics] Sample.rows 1 10
                 Sample.noon (Some Sample.new_session))))
      1 Sample.noon (Some 7)
    = Ok200 a'
    /\ Sessions.total_sessions (Sessions.summary a') = 6 + 1.
Proof.
  assert (exists row table',
             create_session [Sample.maths; Sample.physics] Sample.rows 1 10
               Sample.noon (Some Sample.new_session)
             = (WithSession 201 "Study session created successfully" row, table'))
    as (row & table' & E) by (eexists _, _; vm_compute; reflexivity).
  assert (Sessions.get_analytics (sessions_of Sample.rows) 1 Sample.noon (Some 7)
          = Ok200 Sample.week_analytics) as Ha by (vm_compute; reflexivity).
  assert (Sample.noon - 7 * Datetime.US_PER_DAY <= Sample.noon <= Sample.noon) as Hin
      by (vm_compute; intuition discriminate).
  rewrite E. cbn [snd].
  exact (created_session_is_counted _ _ _ _ _ _ _ _ _ _ _ _ _ E Ha Hin).
Defined.
